(** * The orchestration workflow and its communication protocol

    A shallow embedding of [orchestrator/workflow.py] (with the enumerations
    and the [AgentResponse] model of [orchestrator/models/schemas.py] and the
    retry bound of [orchestrator/config/settings.py]).

    - A Python [float] is an IEEE 754 binary64 number: Rocq's primitive
      [float], with the same arithmetic and comparisons.
    - A Python [str] is a [string]; [len] is [String.length] and [s[:n]] is
      [String.substring 0 n s].
    - [agent_responses] and the agent registry are dictionaries the code
      iterates over, so they are insertion-ordered association lists
      ([Dict]); the dictionaries that are only read by key are [gmap]s.
    - The agents, the language model and the clock are external: they are
      the fields of a [Runtime] record, indexed by the position of the call
      in the run, so that each call may answer differently.
    - A Python exception is the [Raised] case of [outcome].
    - The graph library runs the nodes one at a time, merges what a node
      returns into the state it holds ([reduce]) and streams, per node, a
      dictionary keyed by the node's name ([astream]). *)

From Stdlib Require Import PrimFloat ZArith Ascii String.
From Stdlib Require Uint63.
From stdpp Require Import base option list gmap strings pretty.

(** Decimal literals such as [0.3] denote the nearest binary64 number, as in
    Python. *)
Set Warnings "-inexact-float".

(** ** Exceptions *)

Record exn : Type := Exn { exn_type : string; exn_str : string }.

Inductive outcome (A : Type) : Type :=
| Returned (a : A)
| Raised (e : exn).
Arguments Returned {A} a.
Arguments Raised {A} e.

(** ** Strings *)

Module Str.

(** [str.lower] on the ASCII letters. *)
Definition lower_char (c : ascii) : ascii :=
  let n := nat_of_ascii c in
  if (65 <=? n)%nat && (n <=? 90)%nat then ascii_of_nat (n + 32) else c.

Fixpoint lower (s : string) : string :=
  match s with
  | EmptyString => EmptyString
  | String c t => String (lower_char c) (lower t)
  end.

Fixpoint startswith (p s : string) : bool :=
  match p, s with
  | EmptyString, _ => true
  | String a p', String b s' => if decide (a = b) then startswith p' s' else false
  | String _ _, EmptyString => false
  end.

(** [needle in hay] *)
Fixpoint contains (needle hay : string) : bool :=
  startswith needle hay ||
  match hay with
  | EmptyString => false
  | String _ t => contains needle t
  end.

(** [s[:n]] *)
Definition take (n : nat) (s : string) : string := String.substring 0 n s.

(** The line feed of a multi-line literal. *)
Definition nl : string := String (ascii_of_nat 10) EmptyString.

End Str.

(** ** Insertion-ordered dictionaries keyed by strings *)

Module Dict.
Section Dict.
Context {V : Type}.

Definition t : Type := list (string * V).

Definition empty : t := [].

(** [d[k]] read with [d.get(k)] *)
Fixpoint get (k : string) (d : t) : option V :=
  match d with
  | [] => None
  | (k', v) :: d' => if decide (k' = k) then Some v else get k d'
  end.

(** [d[k] = v]: an existing key keeps its position, a new key goes last. *)
Fixpoint set (k : string) (v : V) (d : t) : t :=
  match d with
  | [] => [(k, v)]
  | (k', v') :: d' => if decide (k' = k) then (k', v) :: d' else (k', v') :: set k v d'
  end.

Definition keys (d : t) : list string := d.*1.

Definition values (d : t) : list V := d.*2.

(** [k in d] *)
Definition mem (k : string) (d : t) : bool := bool_decide (k ∈ keys d).

End Dict.
Arguments t V : clear implicits.
End Dict.

(** ** The models of [models/schemas.py] *)

Inductive QueryType : Type := RESEARCH | CODE | DECISION | GENERAL.

Inductive QueryStatus : Type := PENDING | PROCESSING | COMPLETED | FAILED | CANCELLED.

Inductive AgentType : Type :=
| AGENT_RESEARCH | AGENT_CODE | AGENT_DECISION | AGENT_ORCHESTRATOR.

Inductive ProcessingPriority : Type := LOW | MEDIUM | HIGH | CRITICAL.

Global Instance QueryType_eq_dec : EqDecision QueryType.
Proof. solve_decision. Defined.

Global Instance QueryStatus_eq_dec : EqDecision QueryStatus.
Proof. solve_decision. Defined.

Definition AgentType_value (a : AgentType) : string :=
  match a with
  | AGENT_RESEARCH => "RESEARCH"
  | AGENT_CODE => "CODE"
  | AGENT_DECISION => "DECISION"
  | AGENT_ORCHESTRATOR => "ORCHESTRATOR"
  end.

Definition ProcessingPriority_value (p : ProcessingPriority) : string :=
  match p with
  | LOW => "LOW"
  | MEDIUM => "MEDIUM"
  | HIGH => "HIGH"
  | CRITICAL => "CRITICAL"
  end.

Record AgentResponse : Type := mkAgentResponse {
  agent_type : AgentType;
  content : string;
  confidence : float;
  processing_time : float;
  sources : list string;
  error : option string
}.

Record Validation : Type := mkValidation {
  is_valid : bool;
  issues : list string;
  timestamp : string
}.

(** A value of the [metadata] dictionary: what the caller put there, kept
    opaque, or the record the validator stores under ["validation"]. *)
Inductive MetaValue : Type :=
| MetaOpaque (s : string)
| MetaValidation (v : Validation).

Record AgentContext : Type := mkAgentContext {
  ctx_query_id : string;
  ctx_original_query : string;
  ctx_query_type : QueryType;
  ctx_previous_responses : option (Dict.t AgentResponse);
  ctx_metadata : gmap string MetaValue
}.

Inductive BaseMessage : Type :=
| HumanMessage (text : string)
| AIMessage (text : string)
| SystemMessage (text : string).

(** ** The workflow state *)

Record WorkflowState : Type := mkWorkflowState {
  query_id : string;
  original_query : string;
  query_type : QueryType;
  priority : ProcessingPriority;
  next_agent : option string;
  agents_visited : list string;
  messages : list BaseMessage;
  agent_responses : Dict.t AgentResponse;
  current_status : QueryStatus;
  confidence_scores : gmap string float;
  processing_times : gmap string float;
  final_response : option string;
  total_confidence : float;
  metadata : gmap string MetaValue;
  errors : list string;
  retry_count : Z
}.

(** [state[field] = v], one function per field the nodes assign. *)
Definition set_priority (v : ProcessingPriority) (s : WorkflowState) : WorkflowState :=
  mkWorkflowState (query_id s) (original_query s) (query_type s) v (next_agent s)
    (agents_visited s) (messages s) (agent_responses s) (current_status s)
    (confidence_scores s) (processing_times s) (final_response s)
    (total_confidence s) (metadata s) (errors s) (retry_count s).

Definition set_next_agent (v : option string) (s : WorkflowState) : WorkflowState :=
  mkWorkflowState (query_id s) (original_query s) (query_type s) (priority s) v
    (agents_visited s) (messages s) (agent_responses s) (current_status s)
    (confidence_scores s) (processing_times s) (final_response s)
    (total_confidence s) (metadata s) (errors s) (retry_count s).

Definition set_agents_visited (v : list string) (s : WorkflowState) : WorkflowState :=
  mkWorkflowState (query_id s) (original_query s) (query_type s) (priority s)
    (next_agent s) v (messages s) (agent_responses s) (current_status s)
    (confidence_scores s) (processing_times s) (final_response s)
    (total_confidence s) (metadata s) (errors s) (retry_count s).

Definition set_messages (v : list BaseMessage) (s : WorkflowState) : WorkflowState :=
  mkWorkflowState (query_id s) (original_query s) (query_type s) (priority s)
    (next_agent s) (agents_visited s) v (agent_responses s) (current_status s)
    (confidence_scores s) (processing_times s) (final_response s)
    (total_confidence s) (metadata s) (errors s) (retry_count s).

Definition set_agent_responses (v : Dict.t AgentResponse) (s : WorkflowState) : WorkflowState :=
  mkWorkflowState (query_id s) (original_query s) (query_type s) (priority s)
    (next_agent s) (agents_visited s) (messages s) v (current_status s)
    (confidence_scores s) (processing_times s) (final_response s)
    (total_confidence s) (metadata s) (errors s) (retry_count s).

Definition set_current_status (v : QueryStatus) (s : WorkflowState) : WorkflowState :=
  mkWorkflowState (query_id s) (original_query s) (query_type s) (priority s)
    (next_agent s) (agents_visited s) (messages s) (agent_responses s) v
    (confidence_scores s) (processing_times s) (final_response s)
    (total_confidence s) (metadata s) (errors s) (retry_count s).

Definition set_confidence_scores (v : gmap string float) (s : WorkflowState) : WorkflowState :=
  mkWorkflowState (query_id s) (original_query s) (query_type s) (priority s)
    (next_agent s) (agents_visited s) (messages s) (agent_responses s)
    (current_status s) v (processing_times s) (final_response s)
    (total_confidence s) (metadata s) (errors s) (retry_count s).

Definition set_processing_times (v : gmap string float) (s : WorkflowState) : WorkflowState :=
  mkWorkflowState (query_id s) (original_query s) (query_type s) (priority s)
    (next_agent s) (agents_visited s) (messages s) (agent_responses s)
    (current_status s) (confidence_scores s) v (final_response s)
    (total_confidence s) (metadata s) (errors s) (retry_count s).

Definition set_final_response (v : option string) (s : WorkflowState) : WorkflowState :=
  mkWorkflowState (query_id s) (original_query s) (query_type s) (priority s)
    (next_agent s) (agents_visited s) (messages s) (agent_responses s)
    (current_status s) (confidence_scores s) (processing_times s) v
    (total_confidence s) (metadata s) (errors s) (retry_count s).

Definition set_total_confidence (v : float) (s : WorkflowState) : WorkflowState :=
  mkWorkflowState (query_id s) (original_query s) (query_type s) (priority s)
    (next_agent s) (agents_visited s) (messages s) (agent_responses s)
    (current_status s) (confidence_scores s) (processing_times s)
    (final_response s) v (metadata s) (errors s) (retry_count s).

Definition set_metadata (v : gmap string MetaValue) (s : WorkflowState) : WorkflowState :=
  mkWorkflowState (query_id s) (original_query s) (query_type s) (priority s)
    (next_agent s) (agents_visited s) (messages s) (agent_responses s)
    (current_status s) (confidence_scores s) (processing_times s)
    (final_response s) (total_confidence s) v (errors s) (retry_count s).

Definition set_errors (v : list string) (s : WorkflowState) : WorkflowState :=
  mkWorkflowState (query_id s) (original_query s) (query_type s) (priority s)
    (next_agent s) (agents_visited s) (messages s) (agent_responses s)
    (current_status s) (confidence_scores s) (processing_times s)
    (final_response s) (total_confidence s) (metadata s) v (retry_count s).

Definition set_retry_count (v : Z) (s : WorkflowState) : WorkflowState :=
  mkWorkflowState (query_id s) (original_query s) (query_type s) (priority s)
    (next_agent s) (agents_visited s) (messages s) (agent_responses s)
    (current_status s) (confidence_scores s) (processing_times s)
    (final_response s) (total_confidence s) (metadata s) (errors s) v.

(** ** The collaborators

    Everything the workflow calls but does not define: the three agents'
    [process], the decision agent's [route_query] (it catches its own
    exceptions) and language model, the clock, two formatting functions of
    the Python runtime, and the texts of the two exceptions that are raised
    outside the workflow's own code.  [tick] is the position of the calling
    node in the run. *)

Record Runtime : Type := mkRuntime {
  research_agent_process : nat -> AgentContext -> outcome AgentResponse;
  code_agent_process : nat -> AgentContext -> outcome AgentResponse;
  decision_agent_process : nat -> AgentContext -> outcome AgentResponse;
  decision_agent_route_query :
    nat -> string -> QueryType -> list AgentType * ProcessingPriority;
  (** [(await llm.ainvoke(prompt)).content] *)
  llm_ainvoke : nat -> string -> outcome string;
  (** [(datetime.utcnow() - start_time).total_seconds()] *)
  elapsed_seconds : nat -> float;
  (** [datetime.utcnow().isoformat()] *)
  utcnow_isoformat : nat -> string;
  (** [f"{x:.2f}"] *)
  format_2f : float -> string;
  (** [json.dumps(d, indent=2)] of a dictionary of strings *)
  json_dumps : list (string * string) -> string;
  (** [str(e)] of the [GraphRecursionError] of the graph library *)
  graph_recursion_message : string;
  (** [str(e)] of the [UnboundLocalError] for the variable [state] of
      [execute] *)
  unbound_state_message : string
}.

(** [config/settings.py]: [retry_max_attempts] is an [int] read from the
    environment, 3 by default. *)
Record Settings : Type := mkSettings { retry_max_attempts : Z }.

Definition default_settings : Settings := mkSettings 3.

Module Workflow.

(** A value of the record [execute] returns.  The record is filled with
    [final_state.get(key, default)] on a chunk of the stream: what such a
    read gives is a value of the field's type, or what the chunk holds
    under the key, which is the output of a node. *)
Inductive Field (A : Type) : Type :=
| Plain (a : A)
| NodeOutput (output : WorkflowState).
Arguments Plain {A} a.
Arguments NodeOutput {A} output.

Section Nodes.
Variable settings : Settings.
Variable rt : Runtime.

(** *** [route_query] *)
Definition route_query (tick : nat) (state : WorkflowState) : WorkflowState :=
  let '(agents, priority) :=
    decision_agent_route_query rt tick (original_query state) (query_type state) in
  let state := set_priority priority state in
  let state := set_current_status PROCESSING state in
  let first_agent :=
    match agents with
    | a :: _ => Str.lower (AgentType_value a)
    | [] => "research"
    end in
  let state := set_next_agent (Some first_agent) state in
  set_messages
    (messages state ++
     [SystemMessage ("Query routed to " +:+ first_agent +:+ " agent with " +:+
                     ProcessingPriority_value priority +:+ " priority")])
    state.

(** *** [research_node] *)
Definition research_node (tick : nat) (state : WorkflowState) : WorkflowState :=
  let context :=
    mkAgentContext (query_id state) (original_query state) (query_type state)
      None (metadata state) in
  match research_agent_process rt tick context with
  | Returned response =>
      let processing_time := elapsed_seconds rt tick in
      let state :=
        set_agent_responses (Dict.set "research" response (agent_responses state)) state in
      let state :=
        set_confidence_scores
          (<["research" := confidence response]> (confidence_scores state)) state in
      let state :=
        set_processing_times
          (<["research" := processing_time]> (processing_times state)) state in
      let state := set_agents_visited (agents_visited state ++ ["research"]) state in
      set_messages
        (messages state ++
         [AIMessage ("Research completed: " +:+ Str.take 200 (content response) +:+ "...")])
        state
  | Raised e =>
      let state := set_errors (errors state ++ ["Research agent: " +:+ exn_str e]) state in
      set_agent_responses
        (Dict.set "research"
           (mkAgentResponse AGENT_RESEARCH "Research failed" 0.0 0.0 [] (Some (exn_str e)))
           (agent_responses state))
        state
  end.

(** *** [code_node] *)
Definition code_node (tick : nat) (state : WorkflowState) : WorkflowState :=
  let context :=
    mkAgentContext (query_id state) (original_query state) (query_type state)
      None (metadata state) in
  match code_agent_process rt tick context with
  | Returned response =>
      let processing_time := elapsed_seconds rt tick in
      let state :=
        set_agent_responses (Dict.set "code" response (agent_responses state)) state in
      let state :=
        set_confidence_scores
          (<["code" := confidence response]> (confidence_scores state)) state in
      let state :=
        set_processing_times
          (<["code" := processing_time]> (processing_times state)) state in
      let state := set_agents_visited (agents_visited state ++ ["code"]) state in
      set_messages
        (messages state ++
         [AIMessage ("Code generation completed: " +:+
                     Str.take 200 (content response) +:+ "...")])
        state
  | Raised e =>
      let state := set_errors (errors state ++ ["Code agent: " +:+ exn_str e]) state in
      set_agent_responses
        (Dict.set "code"
           (mkAgentResponse AGENT_CODE "Code generation failed" 0.0 0.0 []
              (Some (exn_str e)))
           (agent_responses state))
        state
  end.

(** *** [decision_node]: the context carries the responses gathered so far. *)
Definition decision_node (tick : nat) (state : WorkflowState) : WorkflowState :=
  let context :=
    mkAgentContext (query_id state) (original_query state) (query_type state)
      (Some (agent_responses state)) (metadata state) in
  match decision_agent_process rt tick context with
  | Returned response =>
      let processing_time := elapsed_seconds rt tick in
      let state :=
        set_agent_responses (Dict.set "decision" response (agent_responses state)) state in
      let state :=
        set_confidence_scores
          (<["decision" := confidence response]> (confidence_scores state)) state in
      let state :=
        set_processing_times
          (<["decision" := processing_time]> (processing_times state)) state in
      let state := set_agents_visited (agents_visited state ++ ["decision"]) state in
      set_messages
        (messages state ++
         [AIMessage ("Decision made: " +:+ Str.take 200 (content response) +:+ "...")])
        state
  | Raised e =>
      let state := set_errors (errors state ++ ["Decision agent: " +:+ exn_str e]) state in
      set_agent_responses
        (Dict.set "decision"
           (mkAgentResponse AGENT_DECISION "Decision failed" 0.0 0.0 []
              (Some (exn_str e)))
           (agent_responses state))
        state
  end.

(** *** [synthesize_responses] *)

(** The weight of a response in the confidence average. *)
Definition weight (response : AgentResponse) : float :=
  match error response with
  | None => 1.0
  | Some _ => 0.5
  end%float.

(** The loop over [responses.items()]: the pair
    [(total_confidence, total_weight)] after the last response. *)
Definition accumulate_confidence (responses : Dict.t AgentResponse) : float * float :=
  fold_left
    (fun acc item =>
       let w := weight item.2 in
       ((acc.1 + confidence item.2 * w)%float, (acc.2 + w)%float))
    responses (0.0, 0.0)%float.

Definition weighted_confidence (responses : Dict.t AgentResponse) : float :=
  let '(total_confidence, total_weight) := accumulate_confidence responses in
  if PrimFloat.ltb 0.0 total_weight
  then (total_confidence / total_weight)%float
  else 0.5%float.

Definition indent : string := "            ".

Definition synthesis_prompt (state : WorkflowState) : string :=
  Str.nl +:+
  indent +:+ "Synthesize the following agent responses into a comprehensive answer:" +:+ Str.nl +:+
  indent +:+ Str.nl +:+
  indent +:+ "Original Query: " +:+ original_query state +:+ Str.nl +:+
  indent +:+ Str.nl +:+
  indent +:+ "Agent Responses:" +:+ Str.nl +:+
  indent +:+ json_dumps rt (prod_map id content <$> agent_responses state) +:+ Str.nl +:+
  indent +:+ Str.nl +:+
  indent +:+ "Create a unified response that:" +:+ Str.nl +:+
  indent +:+ "1. Combines key information from all agents" +:+ Str.nl +:+
  indent +:+ "2. Maintains coherence and accuracy" +:+ Str.nl +:+
  indent +:+ "3. Preserves important details" +:+ Str.nl +:+
  indent +:+ "4. Provides clear structure" +:+ Str.nl +:+
  indent.

Definition synthesize_responses (tick : nat) (state : WorkflowState) : WorkflowState :=
  let responses := agent_responses state in
  match responses with
  | [] =>
      let state := set_final_response (Some "No agent responses available") state in
      set_total_confidence 0.0 state
  | [(_, response)] =>
      let state := set_final_response (Some (content response)) state in
      set_total_confidence (confidence response) state
  | _ =>
      match llm_ainvoke rt tick (synthesis_prompt state) with
      | Returned synthesized =>
          let state := set_total_confidence (weighted_confidence responses) state in
          let state := set_final_response (Some synthesized) state in
          set_messages
            (messages state ++
             [SystemMessage ("Synthesis completed with confidence: " +:+
                             format_2f rt (total_confidence state))])
            state
      | Raised e =>
          let state := set_errors (errors state ++ ["Synthesis: " +:+ exn_str e]) state in
          let state := set_final_response (Some "Failed to synthesize responses") state in
          set_total_confidence 0.0 state
      end
  end.

(** *** [validate_response] *)

(** [bool(state.get("final_response"))]: present and not empty. *)
Definition truthy (s : option string) : bool :=
  match s with
  | None => false
  | Some EmptyString => false
  | Some (String _ _) => true
  end.

(** The four checks in source order; each one that fires clears [is_valid]
    and appends its issue. *)
Definition validation_checks (state : WorkflowState) : bool * list string :=
  let v : bool * list string := (true, []) in
  let v :=
    if negb (truthy (final_response state))
    then (false, v.2 ++ ["No final response generated"]) else v in
  let v :=
    if PrimFloat.ltb (total_confidence state) 0.3
    then (false, v.2 ++ ["Low confidence: " +:+ format_2f rt (total_confidence state)])
    else v in
  let v :=
    if bool_decide (2 < length (errors state))
    then (false, v.2 ++ ["Too many errors: " +:+ pretty (length (errors state))])
    else v in
  let v :=
    if truthy (final_response state) &&
       bool_decide (String.length (default "" (final_response state)) < 50)
    then (false, v.2 ++ ["Response too short"]) else v in
  v.

Definition validate_response (tick : nat) (state : WorkflowState) : WorkflowState :=
  let '(is_valid, validation_issues) := validation_checks state in
  let state :=
    set_metadata
      (<["validation" :=
           MetaValidation (mkValidation is_valid validation_issues (utcnow_isoformat rt tick))]>
         (metadata state))
      state in
  if negb is_valid && bool_decide (retry_count state < retry_max_attempts settings)%Z
  then
    let state := set_retry_count (retry_count state + 1)%Z state in
    set_current_status PROCESSING state
  else
    set_current_status (if is_valid then COMPLETED else FAILED) state.

(** *** The routing functions of the conditional edges *)

Definition determine_next_agent (state : WorkflowState) : string :=
  match query_type state with
  | RESEARCH => "research"
  | CODE => "code"
  | DECISION => "decision"
  | GENERAL => "research"
  end.

Definition after_research (state : WorkflowState) : string :=
  if negb (bool_decide ("code" ∈ agents_visited state)) &&
     (bool_decide (query_type state = CODE) ||
      Str.contains "code" (Str.lower (original_query state)))
  then "code"
  else if negb (bool_decide ("decision" ∈ agents_visited state)) &&
          bool_decide (query_type state = DECISION)
  then "decision"
  else "synthesizer".

Definition after_code (state : WorkflowState) : string :=
  if negb (bool_decide ("research" ∈ agents_visited state)) &&
     (bool_decide (query_type state = DECISION) ||
      PrimFloat.ltb (default 0.0%float (confidence_scores state !! "code")) 0.7)
  then "research"
  else "synthesizer".

Definition after_decision (state : WorkflowState) : string := "synthesizer".

(** [validation.get("is_valid")] on what [metadata] holds under
    ["validation"]: a missing entry reads as falsy, a value that is not a
    dictionary has no [get]. *)
Definition should_retry (state : WorkflowState) : outcome string :=
  let retry (valid : bool) :=
    if negb valid && bool_decide (retry_count state < retry_max_attempts settings)%Z
    then "router" else "end" in
  match metadata state !! "validation" with
  | None => Returned (retry false)
  | Some (MetaValidation v) => Returned (retry (is_valid v))
  | Some (MetaOpaque _) =>
      Raised (Exn "AttributeError" "'str' object has no attribute 'get'")
  end.

(** *** The graph of [_build_workflow] *)

Inductive Node : Type :=
| N_router | N_research | N_code | N_decision | N_synthesizer | N_validator | N_END.

Global Instance Node_eq_dec : EqDecision Node.
Proof. solve_decision. Defined.

(** The dictionaries given to [add_conditional_edges]. *)
Definition router_edges : Dict.t Node :=
  [("research", N_research); ("code", N_code); ("decision", N_decision);
   ("synthesizer", N_synthesizer)].

Definition research_edges : Dict.t Node :=
  [("code", N_code); ("decision", N_decision); ("synthesizer", N_synthesizer);
   ("validator", N_validator)].

Definition code_edges : Dict.t Node :=
  [("research", N_research); ("decision", N_decision); ("synthesizer", N_synthesizer);
   ("validator", N_validator)].

Definition decision_edges : Dict.t Node :=
  [("research", N_research); ("code", N_code); ("synthesizer", N_synthesizer);
   ("validator", N_validator)].

Definition validator_edges : Dict.t Node := [("router", N_router); ("end", N_END)].

Definition follow (edges : Dict.t Node) (key : string) : outcome Node :=
  match Dict.get key edges with
  | Some n => Returned n
  | None => Raised (Exn "KeyError" key)
  end.

(** One node of the graph followed by its outgoing edge: the next node and
    what the node returned. *)
Definition step (tick : nat) (n : Node) (state : WorkflowState)
  : outcome (Node * WorkflowState) :=
  let goto (edges : Dict.t Node) (key : string) (state : WorkflowState) :=
    match follow edges key with
    | Returned n' => Returned (n', state)
    | Raised e => Raised e
    end in
  match n with
  | N_router =>
      let state := route_query tick state in
      goto router_edges (determine_next_agent state) state
  | N_research =>
      let state := research_node tick state in
      goto research_edges (after_research state) state
  | N_code =>
      let state := code_node tick state in
      goto code_edges (after_code state) state
  | N_decision =>
      let state := decision_node tick state in
      goto decision_edges (after_decision state) state
  | N_synthesizer => Returned (N_validator, synthesize_responses tick state)
  | N_validator =>
      let state := validate_response tick state in
      match should_retry state with
      | Returned key => goto validator_edges key state
      | Raised e => Raised e
      end
  | N_END => Returned (N_END, state)
  end.

(** [messages] is declared [Annotated[Sequence[BaseMessage], operator.add]]:
    the graph does not replace the list it holds by the list a node
    returns, it adds the returned list to its own.  Every node appends in
    place to the list it was handed, which is the graph's own, and returns
    that same list, so the graph adds the list to itself.  All other fields
    are replaced by what the node returns.  The routing functions do not
    read [messages], so they answer the same before and after the merge. *)
Definition reduce (output : WorkflowState) : WorkflowState :=
  set_messages (messages output ++ messages output) output.

(** The names given to [add_node]; [END] is the library's ["__end__"]. *)
Definition node_name (n : Node) : string :=
  match n with
  | N_router => "router"
  | N_research => "research"
  | N_code => "code"
  | N_decision => "decision"
  | N_synthesizer => "synthesizer"
  | N_validator => "validator"
  | N_END => "__end__"
  end.

(** The running of the graph: nodes run one at a time until [END], each on
    the state merged from the previous node's output; the graph library
    stops a run that is still going after [recursion_limit] nodes by
    raising [GraphRecursionError].  [run] is the state the graph holds when
    the run has reached [END]. *)
Fixpoint run (recursion_limit : nat) (tick : nat) (n : Node) (state : WorkflowState)
  : outcome WorkflowState :=
  match n with
  | N_END => Returned state
  | _ =>
      match recursion_limit with
      | O => Raised (Exn "GraphRecursionError" (graph_recursion_message rt))
      | S limit =>
          match step tick n state with
          | Returned (n', output) => run limit (S tick) n' (reduce output)
          | Raised e => Raised e
          end
      end
  end.

(** What [app.astream] yields for a node of a compiled [StateGraph]: a
    dictionary whose only key is the node's name, holding what the node
    returned. *)
Definition Chunk : Type := Dict.t WorkflowState.

Definition chunk_of (n : Node) (output : WorkflowState) : Chunk := [(node_name n, output)].

(** [app.astream(initial_state, config)]: the chunks of the same run, in
    order.  An exception of the run ends the iteration, whatever was
    yielded before. *)
Fixpoint astream (recursion_limit : nat) (tick : nat) (n : Node) (state : WorkflowState)
  : outcome (list Chunk) :=
  match n with
  | N_END => Returned []
  | _ =>
      match recursion_limit with
      | O => Raised (Exn "GraphRecursionError" (graph_recursion_message rt))
      | S limit =>
          match step tick n state with
          | Returned (n', output) =>
              match astream limit (S tick) n' (reduce output) with
              | Returned chunks => Returned (chunk_of n output :: chunks)
              | Raised e => Raised e
              end
          | Raised e => Raised e
          end
      end
  end.

(** *** [execute]: [meta] is the optional [metadata] argument.

    The loop over [app.astream] keeps the last chunk in [state] (its body
    only logs, and only when the chunk has a key ["messages"]); the result
    is read from that chunk with [final_state.get(key, default)].  Every
    exception of the run is caught and turned into a FAILED result. *)

(** [chunk.get(key, default)] *)
Definition chunk_get {A : Type} (chunk : Chunk) (key : string) (default : A) : Field A :=
  match Dict.get key chunk with
  | Some output => NodeOutput output
  | None => Plain default
  end.

Record ExecutionResult : Type := mkExecutionResult {
  result_query_id : string;
  result_status : Field QueryStatus;
  result_response : Field string;
  result_confidence : Field float;
  result_agents_used : Field (list string);
  result_processing_times : Field (gmap string float);
  result_errors : Field (list string);
  result_metadata : Field (gmap string MetaValue)
}.

Definition initial_state (query_id query : string) (query_type : QueryType)
  (meta : option (gmap string MetaValue)) : WorkflowState :=
  mkWorkflowState query_id query query_type MEDIUM None [] [HumanMessage query] []
    PENDING ∅ ∅ None 0.0 (default ∅ meta) [] 0.

Definition execute (recursion_limit : nat) (query_id query : string)
  (query_type : QueryType) (meta : option (gmap string MetaValue))
  : ExecutionResult :=
  let attempt : outcome ExecutionResult :=
    match astream recursion_limit 0 N_router
            (initial_state query_id query query_type meta) with
    | Returned chunks =>
        match last chunks with
        | Some final_state =>
            Returned
              (mkExecutionResult query_id
                 (chunk_get final_state "current_status" FAILED)
                 (chunk_get final_state "final_response" "No response generated")
                 (chunk_get final_state "total_confidence" 0.0%float)
                 (chunk_get final_state "agents_visited" [])
                 (chunk_get final_state "processing_times" ∅)
                 (chunk_get final_state "errors" [])
                 (chunk_get final_state "metadata" ∅))
        | None => Raised (Exn "UnboundLocalError" (unbound_state_message rt))
        end
    | Raised e => Raised e
    end in
  match attempt with
  | Returned result => result
  | Raised e =>
      mkExecutionResult query_id (Plain FAILED)
        (Plain ("Workflow execution failed: " +:+ exn_str e))
        (Plain 0.0%float) (Plain []) (Plain ∅) (Plain [exn_str e])
        (Plain {["error_type" := MetaOpaque (exn_type e)]})
  end.

(** The states a run goes through: [reachable q n tick state] when the run
    started by [execute] on the query [q] is about to execute node [n] on
    [state] as its [tick]-th node. *)
Inductive reachable (start : WorkflowState) : Node -> nat -> WorkflowState -> Prop :=
| reachable_start : reachable start N_router 0 start
| reachable_step n tick state n' output :
    reachable start n tick state ->
    n <> N_END ->
    step tick n state = Returned (n', output) ->
    reachable start n' (S tick) (reduce output).

End Nodes.
End Workflow.

(** ** The communication protocol *)

Module Protocol.
Section Protocol.
(** The type of agent instances. *)
Context {Agent : Type}.

Record Message : Type := mkMessage {
  msg_from : string;
  msg_to : string;
  msg_type : string;
  msg_content : string;
  msg_timestamp : string
}.

Record AgentCommunicationProtocol : Type := mkProtocol {
  message_queue : gmap string (list Message);
  agent_registry : Dict.t Agent
}.

(** [__init__] *)
Definition init : AgentCommunicationProtocol := mkProtocol ∅ [].

Definition register_agent (agent_name : string) (agent_instance : Agent)
  (self : AgentCommunicationProtocol) : AgentCommunicationProtocol :=
  mkProtocol
    (<[agent_name := []]> (message_queue self))
    (Dict.set agent_name agent_instance (agent_registry self)).

(** [now] is [datetime.utcnow().isoformat()] at the call. *)
Definition send_message (now : string) (from_agent to_agent message_type content : string)
  (self : AgentCommunicationProtocol) : AgentCommunicationProtocol :=
  let message := mkMessage from_agent to_agent message_type content now in
  match message_queue self !! to_agent with
  | Some queue =>
      mkProtocol (<[to_agent := queue ++ [message]]> (message_queue self))
        (agent_registry self)
  | None => self
  end.

(** Returns the drained messages and the protocol after the call. *)
Definition receive_messages (agent_name : string) (self : AgentCommunicationProtocol)
  : list Message * AgentCommunicationProtocol :=
  match message_queue self !! agent_name with
  | Some messages =>
      (messages,
       mkProtocol (<[agent_name := []]> (message_queue self)) (agent_registry self))
  | None => ([], self)
  end.

(** [now agent_name] is the clock read by the send to [agent_name]. *)
Definition broadcast_message (now : string -> string)
  (from_agent message_type content : string)
  (self : AgentCommunicationProtocol) : AgentCommunicationProtocol :=
  fold_left
    (fun p agent_name =>
       if decide (agent_name <> from_agent)
       then send_message (now agent_name) from_agent agent_name message_type content p
       else p)
    (Dict.keys (agent_registry self)) self.

(** The status record of an agent, a dictionary of strings here;
    [get_status agent] is [agent.get_status()] when the agent has the
    attribute and [None] when it has not. *)
Definition Status : Type := Dict.t string.

Variable get_status : Agent -> option Status.

Definition unknown_status (agent_name : string) : Status :=
  [("status", "unknown"); ("agent", agent_name)].

Definition get_agent_status (agent_name : string) (self : AgentCommunicationProtocol)
  : Status :=
  match Dict.get agent_name (agent_registry self) with
  | Some agent =>
      match get_status agent with
      | Some status => status
      | None => unknown_status agent_name
      end
  | None => unknown_status agent_name
  end.

Definition get_all_agents_status (self : AgentCommunicationProtocol) : Dict.t Status :=
  fold_left
    (fun statuses agent_name =>
       Dict.set agent_name (get_agent_status agent_name self) statuses)
    (Dict.keys (agent_registry self)) [].

(** A batch of [send_message] calls to one name, oldest first, each given
    as (clock, sender, type, content); and the messages they enqueue. *)
Definition send_all (to_agent : string) (batch : list (string * string * string * string))
  (self : AgentCommunicationProtocol) : AgentCommunicationProtocol :=
  fold_left
    (fun p '(now, from_agent, message_type, content) =>
       send_message now from_agent to_agent message_type content p)
    batch self.

Definition batch_messages (to_agent : string)
  (batch : list (string * string * string * string)) : list Message :=
  (fun '(now, from_agent, message_type, content) =>
     mkMessage from_agent to_agent message_type content now) <$> batch.

(** What holds of a protocol built by [__init__] and the methods: every
    registered name has a queue and every queue belongs to a registered
    name, and no name is registered twice. *)
Definition consistent (self : AgentCommunicationProtocol) : Prop :=
  NoDup (Dict.keys (agent_registry self)) /\
  forall agent_name : string,
    is_Some (message_queue self !! agent_name) <->
    agent_name ∈ Dict.keys (agent_registry self).

End Protocol.
Arguments AgentCommunicationProtocol Agent : clear implicits.
End Protocol.

(** ** The decision agent's routing ([agents/decision_agent.py]) *)

Module DecisionAgent.

(** What [str.upper] does to a text of ASCII characters: the letters a to z
    become A to Z.  On other text [str.upper] also turns some characters
    outside ASCII into ASCII letters, so the agent below takes the built-in
    itself as a parameter. *)
Definition upper_char (c : ascii) : ascii :=
  let n := nat_of_ascii c in
  if (97 <=? n)%nat && (n <=? 122)%nat then ascii_of_nat (n - 32) else c.

Fixpoint upper (s : string) : string :=
  match s with
  | EmptyString => EmptyString
  | String c t => String (upper_char c) (upper t)
  end.

(** Every character of the text is an ASCII character. *)
Fixpoint is_ascii (s : string) : bool :=
  match s with
  | EmptyString => true
  | String c t => (nat_of_ascii c <? 128)%nat && is_ascii t
  end.

(** [self.routing_rules] of [__init__]. *)
Definition routing_rules : list (QueryType * list AgentType) :=
  [(RESEARCH, [AGENT_RESEARCH]);
   (CODE, [AGENT_CODE]);
   (DECISION, [AGENT_RESEARCH; AGENT_CODE]);
   (GENERAL, [])].

(** [self.routing_rules[query_type]], [None] when the key is missing. *)
Fixpoint rules_get (rules : list (QueryType * list AgentType)) (query_type : QueryType)
  : option (list AgentType) :=
  match rules with
  | [] => None
  | (k, agents) :: rules' =>
      if decide (k = query_type) then Some agents else rules_get rules' query_type
  end.

Section Agent.
(** [(await self.llm.ainvoke(prompt)).content] *)
Variable llm : string -> outcome string.
(** [json.dumps] of the fallback classification, given [str(e)]. *)
Variable fallback_classification : string -> string.
(** The branch of [route_query] for a query type without a routing rule:
    [_select_agents] on the classification, the decoding of its JSON answer
    and the translation of the names into agent types. *)
Variable select_dynamically : string -> outcome (list AgentType).
(** The built-in [str.upper]. *)
Variable str_upper : string -> string.

Definition pad : string := "            ".

Definition classify_prompt (query : string) : string :=
  Str.nl +:+
  pad +:+ "Classify the following query into categories and identify the user's intent:" +:+ Str.nl +:+
  pad +:+ Str.nl +:+
  pad +:+ "Query: " +:+ query +:+ Str.nl +:+
  pad +:+ Str.nl +:+
  pad +:+ "Provide:" +:+ Str.nl +:+
  pad +:+ "1. Primary category (RESEARCH, CODE, DECISION, or GENERAL)" +:+ Str.nl +:+
  pad +:+ "2. Specific intent" +:+ Str.nl +:+
  pad +:+ "3. Key topics/entities" +:+ Str.nl +:+
  pad +:+ "4. Required capabilities" +:+ Str.nl +:+
  pad +:+ "5. Complexity level (simple, moderate, complex)" +:+ Str.nl +:+
  pad +:+ Str.nl +:+
  pad +:+ "Format as JSON." +:+ Str.nl +:+
  pad.

Definition _classify_query (query : string) : string :=
  match llm (classify_prompt query) with
  | Returned text => text
  | Raised e => fallback_classification (exn_str e)
  end.

Definition priority_prompt (query : string) : string :=
  Str.nl +:+
  pad +:+ "Assess the priority level of the following query:" +:+ Str.nl +:+
  pad +:+ Str.nl +:+
  pad +:+ "Query: " +:+ query +:+ Str.nl +:+
  pad +:+ Str.nl +:+
  pad +:+ "Consider:" +:+ Str.nl +:+
  pad +:+ "1. Urgency indicators" +:+ Str.nl +:+
  pad +:+ "2. Business impact" +:+ Str.nl +:+
  pad +:+ "3. User context" +:+ Str.nl +:+
  pad +:+ "4. Query complexity" +:+ Str.nl +:+
  pad +:+ Str.nl +:+
  pad +:+ "Assign priority: LOW, MEDIUM, HIGH, or CRITICAL" +:+ Str.nl +:+
  pad +:+ "Provide reasoning." +:+ Str.nl +:+
  pad.

Definition _assess_priority (query : string) : string :=
  match llm (priority_prompt query) with
  | Returned text => text
  | Raised _ => "MEDIUM"
  end.

(** The priority read off an assessment. *)
Definition priority_of (priority_assessment : string) : ProcessingPriority :=
  if Str.contains "CRITICAL" (str_upper priority_assessment) then CRITICAL
  else if Str.contains "HIGH" (str_upper priority_assessment) then HIGH
  else if Str.contains "LOW" (str_upper priority_assessment) then LOW
  else MEDIUM.

(** [route_query]: any exception is answered by the default routing. *)
Definition route_query (query : string) (query_type : QueryType)
  : list AgentType * ProcessingPriority :=
  let classification := _classify_query query in
  let priority_assessment := _assess_priority query in
  let priority := priority_of priority_assessment in
  let selection :=
    match rules_get routing_rules query_type with
    | Some agent_types => Returned agent_types
    | None => select_dynamically classification
    end in
  match selection with
  | Returned agent_types => (agent_types, priority)
  | Raised _ => ([AGENT_RESEARCH], MEDIUM)
  end.

End Agent.

(** The collaborators of the workflow with this decision agent as the
    router's; the language model may answer differently at each node. *)
Definition with_decision_agent (llm : nat -> string -> outcome string)
  (fallback_classification : string -> string)
  (select_dynamically : string -> outcome (list AgentType))
  (str_upper : string -> string) (rt : Runtime) : Runtime :=
  mkRuntime (research_agent_process rt) (code_agent_process rt) (decision_agent_process rt)
    (fun tick => route_query (llm tick) fallback_classification select_dynamically str_upper)
    (llm_ainvoke rt) (elapsed_seconds rt) (utcnow_isoformat rt) (format_2f rt)
    (json_dumps rt) (graph_recursion_message rt) (unbound_state_message rt).

End DecisionAgent.

(** ** The confidence scores of the research and code agents
    ([agents/research_agent.py], [agents/code_agent.py]) *)

Module AgentConfidence.

(** [float(n)] for a length. *)
Definition float_of_nat (n : nat) : float :=
  PrimFloat.of_uint63 (Uint63.of_Z (Z.of_nat n)).

(** [min(a, b)] of two floats: [b] when [b < a], else [a]. *)
Definition fmin (a b : float) : float := if PrimFloat.ltb b a then b else a.

Section Confidence.
(** The intermediate steps of an agent run. *)
Context {Step : Type}.

(** [ResearchAgent._calculate_confidence]: [steps] is
    [result.get("intermediate_steps", [])] and [output] is
    [result.get("output", "")]. *)
Definition research_confidence (steps : list Step) (output : string) : float :=
  let confidence := 0.5%float in
  let confidence :=
    match steps with
    | [] => confidence
    | _ :: _ => (confidence + fmin 0.3 (float_of_nat (length steps) * 0.1))%float
    end in
  let confidence :=
    if bool_decide (500 < String.length output) then (confidence + 0.2)%float
    else confidence in
  fmin 1.0 confidence.

End Confidence.

(** [CodeAgent._calculate_confidence]: [output] is
    [result.get("output", "")]. *)
Definition code_confidence (code_blocks : list string) (output : string) : float :=
  let confidence := 0.5%float in
  let confidence :=
    match code_blocks with
    | [] => confidence
    | _ :: _ => (confidence + fmin 0.3 (float_of_nat (length code_blocks) * 0.15))%float
    end in
  let confidence :=
    if bool_decide (500 < String.length output) then (confidence + 0.2)%float
    else confidence in
  fmin 1.0 confidence.

(** The scores by the number of steps or code blocks (0, 1, 2, 3 or more)
    and the length of the output. *)
Definition research_table (n : nat) (long : bool) : float :=
  match n, long with
  | 0, false => 0.5
  | 1, false => 0.6
  | 2, false => 0.7
  | _, false => 0.8
  | 0, true => 0.7
  | 1, true => 0.8
  | 2, true => 0.8999999999999999
  | _, true => 1.0
  end%float.

Definition code_table (n : nat) (long : bool) : float :=
  match n, long with
  | 0, false => 0.5
  | 1, false => 0.65
  | _, false => 0.8
  | 0, true => 0.7
  | 1, true => 0.8500000000000001
  | _, true => 1.0
  end%float.

(** The largest length the tables are checked for. *)
Definition checked_length : nat := 4096.

(** [P 0 && ... && P k] *)
Fixpoint checked_up_to (P : nat -> bool) (k : nat) : bool :=
  match k with
  | O => P O
  | S k' => P (S k') && checked_up_to P k'
  end.

(** From [least] items on, [n * unit] is not below 0.3. *)
Definition saturates (unit : float) (least n : nat) : bool :=
  (n <? least)%nat || negb (PrimFloat.ltb (float_of_nat n * unit) 0.3).

End AgentConfidence.

(** ** The language-model settings ([config/settings.py]) and their use by
    the agents' [_initialize_llm] *)

Module Config.

(** A value of the dictionary [get_llm_config] returns. *)
Inductive ConfigValue : Type :=
| CfgFloat (x : float)
| CfgInt (n : Z)
| CfgText (s : option string).

Record LLMSettings : Type := mkLLMSettings {
  llm_provider : string;
  llm_model : string;
  llm_temperature : float;
  llm_max_tokens : Z;
  llm_timeout : Z;
  openai_api_key : option string;
  openai_org_id : option string;
  openai_base_url : option string;
  anthropic_api_key : option string;
  ollama_base_url : string;
  ollama_model : string
}.

Definition valid_providers : list string := ["openai"; "anthropic"; "ollama"; "azure"].

(** The validator of [llm_provider]. *)
Definition validate_llm_provider (v : string) : outcome string :=
  if bool_decide (v ∈ valid_providers) then Returned v
  else
    Raised (Exn "ValueError"
              "LLM provider must be one of ['openai', 'anthropic', 'ollama', 'azure']").

(** The validator of [openai_api_key]; [provider] is
    [values.get("llm_provider")]. *)
Definition validate_openai_key (v : option string) (provider : option string)
  : outcome (option string) :=
  if bool_decide (provider = Some "openai") &&
     negb (match v with Some (String _ _) => true | _ => false end)
  then Raised (Exn "ValueError" "OpenAI API key is required when using OpenAI provider")
  else Returned v.

Definition get_llm_config (self : LLMSettings) : outcome (Dict.t ConfigValue) :=
  let base_config : Dict.t ConfigValue :=
    [("temperature", CfgFloat (llm_temperature self));
     ("max_tokens", CfgInt (llm_max_tokens self));
     ("timeout", CfgInt (llm_timeout self))] in
  if decide (llm_provider self = "openai") then
    Returned
      (Dict.set "base_url" (CfgText (openai_base_url self))
         (Dict.set "organization" (CfgText (openai_org_id self))
            (Dict.set "model" (CfgText (Some (llm_model self)))
               (Dict.set "api_key" (CfgText (openai_api_key self)) base_config))))
  else if decide (llm_provider self = "anthropic") then
    Returned
      (Dict.set "model" (CfgText (Some (llm_model self)))
         (Dict.set "api_key" (CfgText (anthropic_api_key self)) base_config))
  else if decide (llm_provider self = "ollama") then
    Returned
      (Dict.set "model" (CfgText (Some (ollama_model self)))
         (Dict.set "base_url" (CfgText (Some (ollama_base_url self))) base_config))
  else
    Raised (Exn "ValueError" ("Unsupported LLM provider: " +:+ llm_provider self)).

(** The keyword arguments given to [ChatOpenAI]. *)
Record ChatOpenAI : Type := mkChatOpenAI {
  chat_model : ConfigValue;
  chat_temperature : ConfigValue;
  chat_max_tokens : ConfigValue;
  chat_openai_api_key : option ConfigValue;
  chat_timeout : ConfigValue
}.

Inductive AgentKind : Type := ResearchKind | CodeKind | DecisionKind.

(** [_initialize_llm] of the three agents: they differ in the temperature
    and in the default for [max_tokens]. *)
Definition _initialize_llm (kind : AgentKind) (self : LLMSettings) : outcome ChatOpenAI :=
  match get_llm_config self with
  | Raised e => Raised e
  | Returned llm_config =>
      if decide (llm_provider self = "openai") then
        Returned
          (mkChatOpenAI
             (default (CfgText (Some "gpt-4-turbo-preview")) (Dict.get "model" llm_config))
             (match kind with
              | ResearchKind => default (CfgFloat 0.7) (Dict.get "temperature" llm_config)
              | CodeKind => CfgFloat 0.3
              | DecisionKind => CfgFloat 0.5
              end)
             (default (CfgInt (match kind with CodeKind => 3000 | _ => 2000 end))
                (Dict.get "max_tokens" llm_config))
             (Dict.get "api_key" llm_config)
             (default (CfgInt 60) (Dict.get "timeout" llm_config)))
      else
        Raised (Exn "NotImplementedError"
                  ("Provider " +:+ llm_provider self +:+ " not implemented yet"))
  end.

End Config.

(** ** The tools an agent run used ([_get_tools_used] of the research and
    code agents) *)

Module Tools.

(** An intermediate step is a tuple; each of its items is given here by its
    [tool] attribute, [None] when the item has none. *)
Definition Step : Type := list (option string).

Definition _get_tools_used (intermediate_steps : list Step) : list string :=
  fold_left
    (fun tools_used step =>
       match step with
       | Some tool_name :: _ =>
           if bool_decide (tool_name ∈ tools_used) then tools_used
           else tools_used ++ [tool_name]
       | _ => tools_used
       end)
    intermediate_steps [].

(** The tool of every step that names one, in the order of the steps. *)
Definition step_tools (intermediate_steps : list Step) : list string :=
  omap (fun step : Step => match step with Some tool_name :: _ => Some tool_name | _ => None end)
    intermediate_steps.

End Tools.

(** ** Definitions used to state the properties *)

Module Props.
Import Workflow.

(** *** The three agent nodes, by role *)

Inductive Role : Type := Role_research | Role_code | Role_decision.

Definition role_key (r : Role) : string :=
  match r with
  | Role_research => "research"
  | Role_code => "code"
  | Role_decision => "decision"
  end.

Definition agent_node (rt : Runtime) (r : Role) : nat -> WorkflowState -> WorkflowState :=
  match r with
  | Role_research => research_node rt
  | Role_code => code_node rt
  | Role_decision => decision_node rt
  end.

(** The call [await self.<role>_agent.process(context)] of the node. *)
Definition process_call (rt : Runtime) (r : Role) (tick : nat) (state : WorkflowState)
  : outcome AgentResponse :=
  let context previous :=
    mkAgentContext (query_id state) (original_query state) (query_type state)
      previous (metadata state) in
  match r with
  | Role_research => research_agent_process rt tick (context None)
  | Role_code => code_agent_process rt tick (context None)
  | Role_decision => decision_agent_process rt tick (context (Some (agent_responses state)))
  end.

Definition role_node (r : Role) : Node :=
  match r with
  | Role_research => N_research
  | Role_code => N_code
  | Role_decision => N_decision
  end.

Definition degraded_content (r : Role) : string :=
  match r with
  | Role_research => "Research failed"
  | Role_code => "Code generation failed"
  | Role_decision => "Decision failed"
  end.

Definition error_prefix (r : Role) : string :=
  match r with
  | Role_research => "Research agent: "
  | Role_code => "Code agent: "
  | Role_decision => "Decision agent: "
  end.

(** *** The confidence average in the words of the specification

    [sum(confidence_i * w_i) / sum(w_i)], with [w_i = 1.0] for a response
    whose error is absent and [0.5] otherwise; [sum] adds from the left,
    starting at 0. *)

Definition fsum (l : list float) : float := fold_left PrimFloat.add l 0.0%float.

Definition spec_weight (r : AgentResponse) : float :=
  if bool_decide (error r = None) then 1.0%float else 0.5%float.

Definition spec_total_weight (responses : list AgentResponse) : float :=
  fsum (spec_weight <$> responses).

Definition spec_weighted_sum (responses : list AgentResponse) : float :=
  fsum ((fun r => (confidence r * spec_weight r)%float) <$> responses).

(** [s] occurs in [t]. *)
Definition substring_of (s t : string) : Prop :=
  exists pre post : string, t = pre +:+ s +:+ post.

(** *** The conditions of the validator, as propositions *)

Definition response_missing (state : WorkflowState) : Prop :=
  final_response state = None \/ final_response state = Some "".

Definition low_confidence (state : WorkflowState) : Prop :=
  PrimFloat.ltb (total_confidence state) 0.3 = true.

Definition too_many_errors (state : WorkflowState) : Prop :=
  length (errors state) > 2.

Definition response_short (state : WorkflowState) : Prop :=
  exists s : string, final_response state = Some s /\ String.length s < 50.

(** The validator's verdict and the issues it stores. *)
Definition rejects (rt : Runtime) (state : WorkflowState) : Prop :=
  (validation_checks rt state).1 = false.

Definition recorded_issues (rt : Runtime) (state : WorkflowState) : list string :=
  (validation_checks rt state).2.

(** *** Concrete collaborators and states *)

Definition answer (a : AgentType) (text : string) (c : float) : AgentResponse :=
  mkAgentResponse a text c 0.25 [] None.

(** Every agent answers ["ok"] with confidence 0.9. *)
Definition terse_runtime : Runtime :=
  mkRuntime
    (fun _ _ => Returned (answer AGENT_RESEARCH "ok" 0.9))
    (fun _ _ => Returned (answer AGENT_CODE "ok" 0.9))
    (fun _ _ => Returned (answer AGENT_DECISION "ok" 0.9))
    (fun _ _ _ => ([AGENT_RESEARCH], MEDIUM))
    (fun _ _ => Returned "ok")
    (fun _ => 0.25%float)
    (fun _ => "2024-01-01T00:00:00")
    (fun _ => "0.90")
    (fun _ => "{}")
    "Recursion limit of 25 reached without hitting a stop condition."
    "cannot access local variable 'state' where it is not associated with a value".

(** The research and code agents time out; the language model is down. *)
Definition failing_runtime : Runtime :=
  mkRuntime
    (fun _ _ => Raised (Exn "TimeoutError" "timed out"))
    (fun _ _ => Raised (Exn "TimeoutError" "timed out"))
    (fun _ _ => Raised (Exn "TimeoutError" "timed out"))
    (fun _ _ _ => ([AGENT_CODE], MEDIUM))
    (fun _ _ => Raised (Exn "ConnectionError" "model unreachable"))
    (fun _ => 0.25%float)
    (fun _ => "2024-01-01T00:00:00")
    (fun _ => "0.00")
    (fun _ => "{}")
    "Recursion limit of 25 reached without hitting a stop condition."
    "cannot access local variable 'state' where it is not associated with a value".

Definition research_query : WorkflowState :=
  initial_state "q1" "what is a monad" RESEARCH None.

Definition code_query : WorkflowState :=
  initial_state "q2" "sort a list" CODE None.

(** Two responses, confidence 0.9 without error and 0.2 with an error. *)
Definition two_responses : Dict.t AgentResponse :=
  [("research", answer AGENT_RESEARCH "Monads sequence effects." 0.9);
   ("code", mkAgentResponse AGENT_CODE "Code generation failed" 0.2 0.0 [] (Some "boom"))].

Definition two_response_state : WorkflowState :=
  set_agent_responses two_responses research_query.

(** A state at the validator with an empty final response. *)
Definition empty_response_state : WorkflowState :=
  set_total_confidence 0.9 (set_final_response (Some "") research_query).

(** The states in which the failing research and code agents hand the query
    to each other. *)
Definition bouncing (state : WorkflowState) : Prop :=
  query_type state = CODE /\
  agents_visited state = [] /\
  confidence_scores state !! "code" = None.

(** The node function the graph runs at a node. *)
Definition apply_node (settings : Settings) (rt : Runtime) (n : Node) (tick : nat)
  (state : WorkflowState) : WorkflowState :=
  match n with
  | N_router => route_query rt tick state
  | N_research => research_node rt tick state
  | N_code => code_node rt tick state
  | N_decision => decision_node rt tick state
  | N_synthesizer => synthesize_responses rt tick state
  | N_validator => validate_response settings rt tick state
  | N_END => state
  end.

(** The node and the state a run has reached after [k] nodes, when it has
    not ended before. *)
Fixpoint advance (settings : Settings) (rt : Runtime) (k : nat) (start : WorkflowState)
  : option (Node * WorkflowState) :=
  match k with
  | O => Some (N_router, start)
  | S k' =>
      match advance settings rt k' start with
      | Some (n, state) =>
          if decide (n = N_END) then None
          else match step settings rt k' n state with
               | Returned (n', output) => Some (n', reduce output)
               | Raised _ => None
               end
      | None => None
      end
  end.

(** The state in which the run of [research_query] with the terse agents
    enters the validator for the third time. *)
Definition third_validation : WorkflowState :=
  match advance default_settings terse_runtime 11 research_query with
  | Some (_, state) => state
  | None => research_query
  end.

(** The state the graph holds at the end of that run. *)
Definition terse_final : WorkflowState :=
  match advance default_settings terse_runtime 12 research_query with
  | Some (_, state) => state
  | None => research_query
  end.

(** *** Runs, step by step *)

(** [steps k tick n state n' state']: [k] nodes, the first one [n] run on
    [state] at position [tick], lead to node [n'] with [state']. *)
Inductive steps (settings : Settings) (rt : Runtime)
  : nat -> nat -> Node -> WorkflowState -> Node -> WorkflowState -> Prop :=
| steps_refl tick n state : steps settings rt 0 tick n state n state
| steps_next k tick n state n1 output n' state' :
    n <> N_END ->
    step settings rt tick n state = Returned (n1, output) ->
    steps settings rt k (S tick) n1 (reduce output) n' state' ->
    steps settings rt (S k) tick n state n' state'.


(** Every call of the research and of the code agent's [process] raises. *)
Definition research_and_code_raise (rt : Runtime) : Prop :=
  forall (tick : nat) (context : AgentContext),
    (exists e, research_agent_process rt tick context = Raised e) /\
    (exists e, code_agent_process rt tick context = Raised e).

(** The score [after_code] reads for the code agent is below 0.7; a missing
    score counts as 0. *)
Definition code_score_low (state : WorkflowState) : Prop :=
  match confidence_scores state !! "code" with
  | Some c => PrimFloat.ltb c 0.7 = true
  | None => True
  end.

(** The keys of [agent_responses]: one per role. *)
Definition role_keys : list string := ["research"; "code"; "decision"].

Definition keyed_by_role (state : WorkflowState) : Prop :=
  NoDup (Dict.keys (agent_responses state)) /\
  (forall k : string, k ∈ Dict.keys (agent_responses state) -> k ∈ role_keys) /\
  (forall k : string, k ∈ agents_visited state -> k ∈ role_keys).

(** The code agent answers ["ok"] with confidence 0.9 on the first pass and
    times out afterwards. *)
Definition flaky_code_runtime : Runtime :=
  mkRuntime
    (fun _ _ => Returned (answer AGENT_RESEARCH "ok" 0.9))
    (fun tick _ =>
       if (tick <? 3)%nat then Returned (answer AGENT_CODE "ok" 0.9)
       else Raised (Exn "TimeoutError" "timed out"))
    (fun _ _ => Returned (answer AGENT_DECISION "ok" 0.9))
    (fun _ _ _ => ([AGENT_CODE], MEDIUM))
    (fun _ _ => Returned "ok")
    (fun _ => 0.25%float)
    (fun _ => "2024-01-01T00:00:00")
    (fun _ => "0.90")
    (fun _ => "{}")
    "Recursion limit of 25 reached without hitting a stop condition."
    "cannot access local variable 'state' where it is not associated with a value".

(** The state in which the run of [code_query] with that code agent enters
    the code node on its second pass. *)
Definition second_code_pass : WorkflowState :=
  match advance default_settings flaky_code_runtime 5 code_query with
  | Some (_, state) => state
  | None => code_query
  end.

(** The research agent gives a full answer with confidence 0.9. *)
Definition thorough_answer : string :=
  "A monad is a type constructor with unit and bind that obey three laws.".

Definition thorough_runtime : Runtime :=
  mkRuntime
    (fun _ _ => Returned (answer AGENT_RESEARCH thorough_answer 0.9))
    (fun _ _ => Returned (answer AGENT_CODE "ok" 0.9))
    (fun _ _ => Returned (answer AGENT_DECISION "ok" 0.9))
    (fun _ _ _ => ([AGENT_RESEARCH], MEDIUM))
    (fun _ _ => Returned "ok")
    (fun _ => 0.25%float)
    (fun _ => "2024-01-01T00:00:00")
    (fun _ => "0.90")
    (fun _ => "{}")
    "Recursion limit of 25 reached without hitting a stop condition."
    "cannot access local variable 'state' where it is not associated with a value".

(** The state the graph holds at the end of the run of [research_query]
    with that research agent. *)
Definition thorough_final : WorkflowState :=
  match advance default_settings thorough_runtime 4 research_query with
  | Some (_, state) => state
  | None => research_query
  end.

(** The code agent computes its confidence as [CodeAgent] does, for an
    answer without code block. *)
Definition scored_code_runtime : Runtime :=
  mkRuntime
    (fun _ _ => Returned (answer AGENT_RESEARCH "ok" 0.9))
    (fun _ _ =>
       Returned (answer AGENT_CODE "use sorted()"
                   (AgentConfidence.code_confidence [] "use sorted()")))
    (fun _ _ => Returned (answer AGENT_DECISION "ok" 0.9))
    (fun _ _ _ => ([AGENT_CODE], MEDIUM))
    (fun _ _ => Returned "ok")
    (fun _ => 0.25%float)
    (fun _ => "2024-01-01T00:00:00")
    (fun _ => "0.50")
    (fun _ => "{}")
    "Recursion limit of 25 reached without hitting a stop condition."
    "cannot access local variable 'state' where it is not associated with a value".

(** The state in which the run of [code_query] with that code agent enters
    the synthesizer: the unsure code agent has been followed by the research
    agent. *)
Definition two_agents_state : WorkflowState :=
  match advance default_settings scored_code_runtime 3 code_query with
  | Some (_, state) => state
  | None => code_query
  end.

End Props.

(** * Properties *)

Import Workflow Props.

(** ** Strings *)

Lemma append_cons (a : ascii) (s t : string) : String a s +:+ t = String a (s +:+ t).
Proof. reflexivity. Qed.

Lemma startswith_spec (p s : string) :
  Str.startswith p s = true <-> exists post : string, s = p +:+ post.
Proof.
  revert s. induction p as [|a p IH]; intros s; simpl.
  - split; [intros _; by exists s | done].
  - destruct s as [|b s].
    + split; [done | intros [post Hpost]; rewrite append_cons in Hpost; discriminate].
    + destruct (decide (a = b)) as [->|Hab].
      * rewrite IH. split; intros [post Hpost]; exists post;
          rewrite append_cons in *; congruence.
      * split; [done | intros [post Hpost]; rewrite append_cons in Hpost; congruence].
Qed.

Lemma contains_spec (needle hay : string) :
  Str.contains needle hay = true <-> substring_of needle hay.
Proof.
  unfold substring_of. induction hay as [|c hay IH]; simpl.
  - rewrite orb_false_r, startswith_spec. split.
    + intros [post Hpost]. exists "", post. done.
    + intros ([|? pre] & post & Hpost); [|rewrite append_cons in Hpost; discriminate].
      by exists post.
  - rewrite orb_true_iff, startswith_spec, IH. split.
    + intros [[post Hpost] | (pre & post & Hpost)].
      * exists "", post. done.
      * exists (String c pre), post. by rewrite append_cons, Hpost.
    + intros ([|c' pre] & post & Hpost).
      * left. by exists post.
      * right. exists pre, post. rewrite append_cons in Hpost. congruence.
Qed.

Lemma contains_false (needle hay : string) :
  Str.contains needle hay = false <-> ~ substring_of needle hay.
Proof. rewrite <- contains_spec. by destruct (Str.contains needle hay). Qed.

(** ** Dictionaries *)

Section DictFacts.
Context {V : Type}.
Implicit Types (d : Dict.t V) (k : string) (v : V).

Lemma dict_get_set_eq d k v : Dict.get k (Dict.set k v d) = Some v.
Proof.
  induction d as [|[k' v'] d IH]; simpl.
  - by rewrite decide_True.
  - destruct (decide (k' = k)) as [->|Hne]; simpl.
    + by rewrite decide_True.
    + by rewrite decide_False.
Qed.

Lemma dict_get_set_ne d k k' v : k <> k' -> Dict.get k' (Dict.set k v d) = Dict.get k' d.
Proof.
  intros Hne. induction d as [|[k0 v0] d IH]; simpl.
  - by rewrite decide_False.
  - destruct (decide (k0 = k)) as [->|Hk0]; simpl.
    + by rewrite !decide_False.
    + by rewrite IH.
Qed.

Lemma dict_keys_set d k k' v :
  k' ∈ Dict.keys (Dict.set k v d) <-> k' = k \/ k' ∈ Dict.keys d.
Proof.
  unfold Dict.keys. induction d as [|[k0 v0] d IH]; simpl.
  - rewrite list_elem_of_singleton, elem_of_nil. tauto.
  - destruct (decide (k0 = k)) as [->|Hk0]; simpl.
    + rewrite elem_of_cons. tauto.
    + rewrite !elem_of_cons, IH. tauto.
Qed.

Lemma dict_mem_set d k v : Dict.mem k (Dict.set k v d) = true.
Proof. apply bool_decide_eq_true, dict_keys_set. by left. Qed.

End DictFacts.

(** ** Routing after the research node *)

Lemma research_edges_total (state : WorkflowState) :
  exists n : Node,
    follow research_edges (after_research state) = Returned n /\
    n ∈ [N_code; N_decision; N_synthesizer].
Proof.
  unfold after_research.
  repeat match goal with |- context [if ?b then _ else _] => destruct b end;
    eexists; (split; [reflexivity|]); set_unfold; tauto.
Qed.

(** C9: the transition after the research node is a function of the state,
    decided in this order: to the code node when ["code"] has not been
    visited and the query type is CODE or the lower-cased query contains
    ["code"]; otherwise to the decision node when ["decision"] has not been
    visited and the query type is DECISION; otherwise to the synthesizer.
    A GENERAL query that does not mention ["code"] goes to the synthesizer.
    The graph maps the three answers to the nodes of the same name. *)
Theorem after_research_transition (state : WorkflowState) :
  let code_unvisited := "code" ∉ agents_visited state in
  let mentions_code := substring_of "code" (Str.lower (original_query state)) in
  let wants_code := code_unvisited /\ (query_type state = CODE \/ mentions_code) in
  let wants_decision :=
    ("decision" ∉ agents_visited state) /\ query_type state = DECISION in
  (wants_code -> after_research state = "code") /\
  (~ wants_code -> wants_decision -> after_research state = "decision") /\
  (~ wants_code -> ~ wants_decision -> after_research state = "synthesizer") /\
  (query_type state = GENERAL -> ~ mentions_code -> code_unvisited ->
   after_research state = "synthesizer") /\
  follow research_edges "code" = Returned N_code /\
  follow research_edges "decision" = Returned N_decision /\
  follow research_edges "synthesizer" = Returned N_synthesizer /\
  (forall settings rt tick,
     let state' := research_node rt tick state in
     exists n : Node,
       step settings rt tick N_research state = Returned (n, state') /\
       follow research_edges (after_research state') = Returned n).
Proof.
  intros code_unvisited mentions_code wants_code wants_decision.
  assert (Hcode : after_research state = "code" <-> wants_code).
  { unfold after_research, wants_code, code_unvisited, mentions_code.
    destruct (Str.contains "code" _) eqn:Hc;
      [apply contains_spec in Hc | apply contains_false in Hc];
      repeat case_bool_decide; simpl; split; try done; try tauto;
      intros [? [? | ?]]; done. }
  assert (Hdecision :
    ~ wants_code -> (after_research state = "decision" <-> wants_decision)).
  { intros Hno. unfold wants_decision.
    assert (Hite : after_research state =
      if negb (bool_decide ("decision" ∈ agents_visited state)) &&
         bool_decide (query_type state = DECISION)
      then "decision" else "synthesizer").
    { rewrite <- Hcode in Hno. revert Hno. unfold after_research.
      destruct (negb (bool_decide ("code" ∈ _)) && _); done. }
    rewrite Hite. repeat case_bool_decide; simpl; split; try done; tauto. }
  assert (Hcases : after_research state = "code" \/
                   after_research state = "decision" \/
                   after_research state = "synthesizer").
  { unfold after_research.
    repeat match goal with |- context [if ?b then _ else _] => destruct b end; tauto. }
  split; [by intros ?%Hcode|].
  split; [by intros Hno ?%(Hdecision Hno)|].
  split.
  { intros Hno Hnd. destruct Hcases as [H|[H|H]]; [| |done].
    - by apply Hcode in H.
    - by apply (Hdecision Hno) in H. }
  split.
  { intros Hgen Hnm Hcu. destruct Hcases as [H|[H|H]]; [| |done].
    - apply Hcode in H as [_ [?|?]]; [congruence|done].
    - assert (Hno : ~ wants_code) by (intros [_ [?|?]]; [congruence|done]).
      apply (Hdecision Hno) in H as [_ ?]. congruence. }
  repeat (split; [reflexivity|]).
  intros settings rt tick state'.
  destruct (research_edges_total state') as (n & Hn & _).
  exists n. split; [|done]. simpl. fold state'. by rewrite Hn.
Qed.

(** ** The communication protocol *)

Section ProtocolFacts.
Context {Agent : Type}.
Implicit Types (self : Protocol.AgentCommunicationProtocol Agent).

Lemma send_to_registered self now from_agent to_agent message_type text queue :
  Protocol.message_queue self !! to_agent = Some queue ->
  Protocol.message_queue
    (Protocol.send_message now from_agent to_agent message_type text self) !! to_agent =
  Some (queue ++ [Protocol.mkMessage from_agent to_agent message_type text now]).
Proof.
  intros Hq. unfold Protocol.send_message. rewrite Hq. simpl.
  apply lookup_insert_eq.
Qed.

Lemma receive_returns_queue self agent_name queue :
  Protocol.message_queue self !! agent_name = Some queue ->
  (Protocol.receive_messages agent_name self).1 = queue.
Proof. intros Hq. unfold Protocol.receive_messages. by rewrite Hq. Qed.

(** C10: registering a name again replaces the agent instance and resets
    the queue of that name to the empty list, so every message that was
    waiting there is lost: a drain that would have returned the pending
    messages returns nothing after the registration.  The other queues are
    untouched. *)
Theorem register_agent_resets_queue self (agent_name : string) (agent_instance : Agent) :
  let self' := Protocol.register_agent agent_name agent_instance self in
  Dict.get agent_name (Protocol.agent_registry self') = Some agent_instance /\
  Protocol.message_queue self' !! agent_name = Some [] /\
  (Protocol.receive_messages agent_name self').1 = [] /\
  (forall pending : list Protocol.Message,
     Protocol.message_queue self !! agent_name = Some pending ->
     (Protocol.receive_messages agent_name self).1 = pending /\
     (Protocol.receive_messages agent_name self').1 = []) /\
  (forall now from_agent message_type text (first_instance : Agent),
     let sent :=
       Protocol.send_message now from_agent agent_name message_type text
         (Protocol.register_agent agent_name first_instance self) in
     (Protocol.receive_messages agent_name sent).1 =
       [Protocol.mkMessage from_agent agent_name message_type text now] /\
     (Protocol.receive_messages agent_name
        (Protocol.register_agent agent_name agent_instance sent)).1 = []) /\
  (forall other : string,
     other <> agent_name ->
     Protocol.message_queue self' !! other = Protocol.message_queue self !! other).
Proof.
  intros self'.
  assert (Hreset : forall p (a : Agent),
    Protocol.message_queue (Protocol.register_agent agent_name a p) !! agent_name
    = Some []).
  { intros p a. apply lookup_insert_eq. }
  assert (Hdrain : forall p (a : Agent),
    (Protocol.receive_messages agent_name (Protocol.register_agent agent_name a p)).1
    = []).
  { intros p a. by apply receive_returns_queue. }
  split; [apply dict_get_set_eq|].
  split; [apply Hreset|].
  split; [apply Hdrain|].
  split.
  { intros pending Hp. split; [by apply receive_returns_queue | apply Hdrain]. }
  split.
  { intros now from_agent message_type text first_instance sent. split; [|apply Hdrain].
    apply receive_returns_queue. unfold sent.
    by rewrite (send_to_registered _ _ _ _ _ _ [] (Hreset _ _)). }
  intros other Hne. unfold self'. simpl. by rewrite lookup_insert_ne.
Qed.

End ProtocolFacts.

(** ** The agent nodes *)

Lemma code_edges_total (state : WorkflowState) :
  exists n : Node, follow code_edges (after_code state) = Returned n.
Proof. unfold after_code. destruct (_ && _); by eexists. Qed.

(** No agent node lets an exception of its collaborator escape: the graph
    always moves on from it. *)
Lemma agent_step_returns settings rt (r : Role) (tick : nat) (state : WorkflowState) :
  exists n : Node,
    step settings rt tick (role_node r) state = Returned (n, agent_node rt r tick state).
Proof.
  destruct r; simpl.
  - destruct (research_edges_total (research_node rt tick state)) as (n & -> & _).
    by exists n.
  - destruct (code_edges_total (code_node rt tick state)) as (n & ->). by exists n.
  - by exists N_synthesizer.
Qed.

(** What a node does when [process] raises. *)
Lemma agent_node_raised rt (r : Role) (tick : nat) (state : WorkflowState) (e : exn) :
  process_call rt r tick state = Raised e ->
  agent_node rt r tick state =
  set_agent_responses
    (Dict.set (role_key r)
       (mkAgentResponse
          (match r with
           | Role_research => AGENT_RESEARCH
           | Role_code => AGENT_CODE
           | Role_decision => AGENT_DECISION
           end)
          (degraded_content r) 0.0 0.0 [] (Some (exn_str e)))
       (agent_responses state))
    (set_errors (errors state ++ [error_prefix r +:+ exn_str e]) state).
Proof.
  destruct r; simpl; unfold research_node, code_node, decision_node;
    intros ->; reflexivity.
Qed.

(** What a node does when [process] returns. *)
Lemma agent_node_returned rt (r : Role) (tick : nat) (state : WorkflowState)
    (response : AgentResponse) :
  process_call rt r tick state = Returned response ->
  let state' := agent_node rt r tick state in
  agent_responses state' = Dict.set (role_key r) response (agent_responses state) /\
  confidence_scores state' = <[role_key r := confidence response]> (confidence_scores state) /\
  processing_times state' = <[role_key r := elapsed_seconds rt tick]> (processing_times state) /\
  agents_visited state' = agents_visited state ++ [role_key r] /\
  length (messages state') = S (length (messages state)) /\
  errors state' = errors state.
Proof.
  destruct r; simpl; unfold research_node, code_node, decision_node;
    intros ->; simpl; rewrite length_app; simpl;
    repeat split; try reflexivity; lia.
Qed.

(** When the collaborator's [process] raises, the node does not propagate
    the failure (the graph moves on with what the node returns); it stores
    under the role's key a degraded response with confidence 0.0 and the
    error text, and appends a descriptive string to [errors].  Nothing else
    is written: no confidence score, no processing time, no entry of
    [agents_visited] and no message. *)
Lemma agent_node_failure_path settings rt (r : Role) (tick : nat)
    (state : WorkflowState) (e : exn) :
  process_call rt r tick state = Raised e ->
  let state' := agent_node rt r tick state in
  (exists n : Node, step settings rt tick (role_node r) state = Returned (n, state')) /\
  (exists degraded : AgentResponse,
     Dict.get (role_key r) (agent_responses state') = Some degraded /\
     agent_responses state' = Dict.set (role_key r) degraded (agent_responses state) /\
     content degraded = degraded_content r /\
     confidence degraded = 0.0%float /\
     error degraded = Some (exn_str e)) /\
  errors state' = errors state ++ [error_prefix r +:+ exn_str e] /\
  confidence_scores state' = confidence_scores state /\
  processing_times state' = processing_times state /\
  agents_visited state' = agents_visited state /\
  messages state' = messages state.
Proof.
  intros Hraise state'. split; [apply agent_step_returns|].
  unfold state'. rewrite (agent_node_raised _ _ _ _ _ Hraise). simpl.
  split; [|done].
  eexists. split; [apply dict_get_set_eq|]. done.
Qed.

(** C2 fails on its second half.  For each of the three agent nodes, run on
    the query of [execute("q1", "what is a monad", RESEARCH)] with an agent
    whose [process] raises [TimeoutError("timed out")]: the node absorbs the
    failure, stores the degraded response with confidence 0.0 and the error
    text and appends to [errors], as claimed; but it sets neither
    [confidence_scores[role]] nor [processing_times[role]], does not append
    the role to [agents_visited] and appends no line to [messages], all of
    which the same node does when [process] returns. *)
Theorem failed_node_skips_bookkeeping (r : Role) :
  let state := research_query in
  let state' := agent_node failing_runtime r 0 state in
  process_call failing_runtime r 0 state = Raised (Exn "TimeoutError" "timed out") /\
  (exists n : Node,
     step default_settings failing_runtime 0 (role_node r) state = Returned (n, state')) /\
  (exists degraded : AgentResponse,
     Dict.get (role_key r) (agent_responses state') = Some degraded /\
     content degraded = degraded_content r /\
     confidence degraded = 0.0%float /\
     error degraded = Some "timed out") /\
  errors state' = [error_prefix r +:+ "timed out"] /\
  confidence_scores state' !! role_key r = None /\
  processing_times state' !! role_key r = None /\
  (role_key r ∉ agents_visited state') /\
  messages state' = messages state /\
  (forall response : AgentResponse,
     let returned := agent_node terse_runtime r 0 state in
     process_call terse_runtime r 0 state = Returned response ->
     confidence_scores returned !! role_key r = Some (confidence response) /\
     processing_times returned !! role_key r = Some (elapsed_seconds terse_runtime 0) /\
     role_key r ∈ agents_visited returned /\
     length (messages returned) = S (length (messages state))).
Proof.
  intros state state'.
  assert (Hraise : process_call failing_runtime r 0 state =
                   Raised (Exn "TimeoutError" "timed out")) by by destruct r.
  destruct (agent_node_failure_path default_settings failing_runtime r 0 state _ Hraise)
    as (Hstep & (degraded & Hget & _ & Hcontent & Hconf & Herr) & Herrors & Hscores &
        Htimes & Hvisited & Hmessages).
  fold state' in Hstep, Hget, Herrors, Hscores, Htimes, Hvisited, Hmessages.
  split; [done|]. split; [done|]. split; [by exists degraded|].
  split; [done|]. split; [by rewrite Hscores|]. split; [by rewrite Htimes|].
  split; [rewrite Hvisited; apply not_elem_of_nil|]. split; [done|].
  intros response returned Hcall.
  destruct (agent_node_returned terse_runtime r 0 state response Hcall)
    as (_ & Hs & Ht & Hv & Hm & _).
  fold returned in Hs, Ht, Hv, Hm.
  rewrite Hs, Ht, Hv, !lookup_insert_eq.
  repeat split; [|done]. apply elem_of_app. right. by apply list_elem_of_singleton.
Qed.

(** ** [agents_visited] against [agent_responses] *)

Lemma run_unfold settings rt (limit tick : nat) (n : Node) (state : WorkflowState) :
  n <> N_END ->
  run settings rt (S limit) tick n state =
  match step settings rt tick n state with
  | Returned (n', output) => run settings rt limit (S tick) n' (reduce output)
  | Raised e => Raised e
  end.
Proof. by destruct n. Qed.

(** C3 fails on the failure path: in the run of a CODE query whose code
    agent raises, the state that leaves the code node has an entry for
    ["code"] in [agent_responses] while [agents_visited] is empty. *)
Theorem failed_node_not_visited :
  exists (n : Node) (tick : nat) (state : WorkflowState),
    reachable default_settings failing_runtime code_query n tick state /\
    Dict.keys (agent_responses state) = ["code"] /\
    agents_visited state = [].
Proof.
  exists N_research, 2,
    (reduce (code_node failing_runtime 1 (reduce (route_query failing_runtime 0 code_query)))).
  split; [|by vm_compute].
  apply (reachable_step _ _ _ N_code 1 (reduce (route_query failing_runtime 0 code_query)));
    [|done|by vm_compute].
  apply (reachable_step _ _ _ N_router 0 code_query); [|done|by vm_compute].
  apply reachable_start.
Qed.

Lemma bouncing_code (tick : nat) (state : WorkflowState) :
  bouncing state ->
  exists state' : WorkflowState,
    step default_settings failing_runtime tick N_code state = Returned (N_research, state') /\
    bouncing state'.
Proof.
  intros (Hq & Hv & Hc). exists (code_node failing_runtime tick state).
  split; [|by split].
  simpl. unfold after_code, code_node. simpl. by rewrite Hq, Hv, Hc.
Qed.

Lemma bouncing_research (tick : nat) (state : WorkflowState) :
  bouncing state ->
  exists state' : WorkflowState,
    step default_settings failing_runtime tick N_research state = Returned (N_code, state') /\
    bouncing state'.
Proof.
  intros (Hq & Hv & Hc). exists (research_node failing_runtime tick state).
  split; [|by split].
  simpl. unfold after_research, research_node. simpl. by rewrite Hq, Hv.
Qed.

Lemma bouncing_never_ends (limit tick : nat) (state : WorkflowState) (n : Node) :
  bouncing state ->
  n = N_code \/ n = N_research ->
  run default_settings failing_runtime limit tick n state =
  Raised (Exn "GraphRecursionError" (graph_recursion_message failing_runtime)).
Proof.
  revert tick state n. induction limit as [|limit IH]; intros tick state n Hb Hn.
  - by destruct Hn as [-> | ->].
  - destruct Hn as [-> | ->]; rewrite run_unfold by done.
    + destruct (bouncing_code tick state Hb) as (state' & -> & Hb').
      apply IH; [exact Hb' | auto].
    + destruct (bouncing_research tick state Hb) as (state' & -> & Hb').
      apply IH; [exact Hb' | auto].
Qed.

(** Because a failed agent is not marked as visited, a CODE query whose
    research and code agents both fail never reaches the synthesizer: the
    two nodes alternate until the graph library gives up, whatever the
    limit. *)
Lemma failing_agents_loop (recursion_limit : nat) :
  run default_settings failing_runtime recursion_limit 0 N_router code_query =
  Raised (Exn "GraphRecursionError" (graph_recursion_message failing_runtime)).
Proof.
  destruct recursion_limit as [|limit]; [done|].
  rewrite run_unfold by done.
  change (step default_settings failing_runtime 0 N_router code_query)
    with (Returned (N_code, route_query failing_runtime 0 code_query)).
  apply bouncing_never_ends; [by repeat split | by left].
Qed.

(** ** The retry counter *)

(** The merge changes [messages] only. *)
Lemma reduce_retry_count (output : WorkflowState) :
  retry_count (reduce output) = retry_count output.
Proof. reflexivity. Qed.

Lemma reduce_current_status (output : WorkflowState) :
  current_status (reduce output) = current_status output.
Proof. reflexivity. Qed.


Lemma reduce_agent_responses (output : WorkflowState) :
  agent_responses (reduce output) = agent_responses output.
Proof. reflexivity. Qed.


Lemma step_apply_node settings rt (tick : nat) (n n' : Node) (state state' : WorkflowState) :
  step settings rt tick n state = Returned (n', state') ->
  state' = apply_node settings rt n tick state.
Proof.
  destruct n; simpl;
    repeat match goal with
           | |- context [match ?x with _ => _ end] => destruct x
           end; congruence.
Qed.

Lemma agent_node_retry_count rt (r : Role) (tick : nat) (state : WorkflowState) :
  retry_count (agent_node rt r tick state) = retry_count state.
Proof.
  destruct r; simpl; unfold research_node, code_node, decision_node;
    match goal with |- context [match ?x with _ => _ end] => destruct x end;
    reflexivity.
Qed.

Lemma route_query_retry_count rt (tick : nat) (state : WorkflowState) :
  retry_count (route_query rt tick state) = retry_count state.
Proof. unfold route_query. by destruct (decision_agent_route_query _ _ _ _). Qed.

Lemma synthesize_retry_count rt (tick : nat) (state : WorkflowState) :
  retry_count (synthesize_responses rt tick state) = retry_count state.
Proof.
  unfold synthesize_responses.
  destruct (agent_responses state) as [|[k r] [|p l]]; try reflexivity.
  by destruct (llm_ainvoke _ _ _).
Qed.

(** The validator adds one to a counter below the bound and leaves any
    other counter alone. *)
Lemma validate_retry_count settings rt (tick : nat) (state : WorkflowState) :
  let state' := validate_response settings rt tick state in
  (retry_count state' = retry_count state \/
   (retry_count state < retry_max_attempts settings /\
    retry_count state' = retry_count state + 1))%Z.
Proof.
  unfold validate_response. destruct (validation_checks rt state) as [[] iss]; simpl.
  - by left.
  - case_bool_decide; simpl; [right | left]; done.
Qed.

Lemma apply_node_retry_count settings rt (n : Node) (tick : nat) (state : WorkflowState) :
  let state' := apply_node settings rt n tick state in
  (retry_count state <= retry_count state' /\
   (retry_count state <= retry_max_attempts settings ->
    retry_count state' <= retry_max_attempts settings))%Z.
Proof.
  intros state'. subst state'. destruct n; unfold apply_node.
  - rewrite route_query_retry_count. lia.
  - change (research_node rt) with (agent_node rt Role_research).
    rewrite agent_node_retry_count. lia.
  - change (code_node rt) with (agent_node rt Role_code).
    rewrite agent_node_retry_count. lia.
  - change (decision_node rt) with (agent_node rt Role_decision).
    rewrite agent_node_retry_count. lia.
  - rewrite synthesize_retry_count. lia.
  - destruct (validate_retry_count settings rt tick state) as [-> | [? ->]]; lia.
  - lia.
Qed.

Lemma reachable_retry_count settings rt (start : WorkflowState) (n : Node) (tick : nat)
    (state : WorkflowState) :
  (retry_count start <= retry_max_attempts settings)%Z ->
  reachable settings rt start n tick state ->
  (retry_count start <= retry_count state <= retry_max_attempts settings)%Z.
Proof.
  intros Hstart Hreach. induction Hreach as [|n tick state n' output _ IH _ Hstep].
  - lia.
  - apply step_apply_node in Hstep as ->. rewrite reduce_retry_count.
    pose proof (apply_node_retry_count settings rt n tick state) as [? ?]. lia.
Qed.

(** A run that returns ends in a reachable state. *)
Lemma run_reachable settings rt (start : WorkflowState) (limit tick : nat) (n : Node)
    (state final : WorkflowState) :
  reachable settings rt start n tick state ->
  run settings rt limit tick n state = Returned final ->
  exists tick' : nat, reachable settings rt start N_END tick' final.
Proof.
  revert tick n state. induction limit as [|limit IH]; intros tick n state Hreach Hrun.
  - destruct n; try discriminate. injection Hrun as <-. by exists tick.
  - destruct (decide (n = N_END)) as [-> | Hn].
    + injection Hrun as <-. by exists tick.
    + rewrite run_unfold in Hrun by done.
      destruct (step settings rt tick n state) as [[n' state']|e] eqn:Hstep; [|done].
      eapply IH; [|exact Hrun]. by eapply reachable_step.
Qed.

(** C5: the retry counter starts at 0; no step of the workflow decreases
    it; and it never exceeds [retry_max_attempts], neither in a state the
    run goes through nor in the state the graph holds when the run has
    ended. *)
Theorem retry_count_monotone_bounded settings rt
    (query_id query : string) (query_type : QueryType)
    (meta : option (gmap string MetaValue)) :
  (0 <= retry_max_attempts settings)%Z ->
  let start := initial_state query_id query query_type meta in
  retry_count start = 0%Z /\
  (forall (n : Node) (tick : nat) (state : WorkflowState),
     reachable settings rt start n tick state ->
     (0 <= retry_count state <= retry_max_attempts settings)%Z /\
     (forall (n' : Node) (state' : WorkflowState),
        step settings rt tick n state = Returned (n', state') ->
        (retry_count state <= retry_count state' <= retry_max_attempts settings)%Z)) /\
  (forall (recursion_limit : nat) (final : WorkflowState),
     run settings rt recursion_limit 0 N_router start = Returned final ->
     (0 <= retry_count final <= retry_max_attempts settings)%Z).
Proof.
  intros Hmax start.
  assert (Hinv : forall n tick state,
    reachable settings rt start n tick state ->
    (0 <= retry_count state <= retry_max_attempts settings)%Z).
  { intros n tick state Hreach.
    by apply (reachable_retry_count settings rt start n tick state Hmax). }
  split; [done|]. split.
  - intros n tick state Hreach. split; [by eapply Hinv|].
    intros n' state' Hstep. apply step_apply_node in Hstep as ->.
    pose proof (Hinv _ _ _ Hreach).
    pose proof (apply_node_retry_count settings rt n tick state) as [? ?]. lia.
  - intros limit final Hrun.
    destruct (run_reachable settings rt start limit 0 N_router start final) as [tick' Hfinal];
      [apply reachable_start | done | by eapply Hinv].
Qed.

Lemma retry_count_monotone_bounded_witness :
  let start := initial_state "q1" "what is a monad" RESEARCH None in
  retry_count start = 0%Z /\
  (forall (n : Node) (tick : nat) (state : WorkflowState),
     reachable default_settings terse_runtime start n tick state ->
     (0 <= retry_count state <= 3)%Z /\
     (forall (n' : Node) (state' : WorkflowState),
        step default_settings terse_runtime tick n state = Returned (n', state') ->
        (retry_count state <= retry_count state' <= 3)%Z)) /\
  (forall (recursion_limit : nat) (final : WorkflowState),
     run default_settings terse_runtime recursion_limit 0 N_router start = Returned final ->
     (0 <= retry_count final <= 3)%Z).
Proof.
  apply (retry_count_monotone_bounded default_settings terse_runtime
           "q1" "what is a monad" RESEARCH None).
  simpl. lia.
Defined.

(** ** The validator *)

(** The four checks as one expression: the verdict is the conjunction of
    the negated conditions and the issues are those of the conditions that
    hold, in source order. *)
Lemma validation_checks_eq rt (state : WorkflowState) :
  let c1 := negb (truthy (final_response state)) in
  let c2 := PrimFloat.ltb (total_confidence state) 0.3 in
  let c3 := bool_decide (2 < length (errors state)) in
  let c4 := truthy (final_response state) &&
            bool_decide (String.length (default "" (final_response state)) < 50) in
  validation_checks rt state =
  (negb (c1 || c2 || c3 || c4),
   (if c1 then ["No final response generated"] else []) ++
   (if c2 then ["Low confidence: " +:+ format_2f rt (total_confidence state)] else []) ++
   (if c3 then ["Too many errors: " +:+ pretty (length (errors state))] else []) ++
   (if c4 then ["Response too short"] else [])).
Proof.
  intros c1 c2 c3 c4. unfold validation_checks. fold c1 c2 c3 c4.
  by destruct c1, c2, c3, c4.
Qed.

Lemma truthy_false (s : option string) : truthy s = false <-> s = None \/ s = Some "".
Proof. destruct s as [[|c s]|]; simpl; split; try done; try tauto; intros [?|?]; done. Qed.

Lemma truthy_true (s : option string) : truthy s = true <-> exists t, s = Some t /\ t <> "".
Proof.
  destruct s as [[|c s]|]; simpl; split; try done.
  - by intros (t & [= <-] & ?).
  - intros _. by eexists.
  - by intros (t & ? & ?).
Qed.

Lemma rejects_iff rt (state : WorkflowState) :
  rejects rt state <->
  response_missing state \/ low_confidence state \/ too_many_errors state \/
  response_short state.
Proof.
  unfold rejects, response_missing, low_confidence, too_many_errors, response_short.
  rewrite validation_checks_eq. simpl.
  rewrite negb_false_iff, !orb_true_iff, andb_true_iff, negb_true_iff.
  rewrite truthy_false, truthy_true, !bool_decide_eq_true. split.
  - intros [[[H|H]|H]|[(t & Ht & _) H]]; [tauto|tauto|right; right; left; lia|].
    rewrite Ht in H. right; right; right. by exists t.
  - intros [H|[H|[H|(s & Hs & Hlen)]]]; [tauto|tauto|left; right; lia|].
    destruct (decide (s = "")) as [-> | Hne]; [tauto|].
    right. split; [by exists s|]. by rewrite Hs.
Qed.

Lemma validate_metadata settings rt (tick : nat) (state : WorkflowState) :
  metadata (validate_response settings rt tick state) !! "validation" =
  Some (MetaValidation
          (mkValidation (validation_checks rt state).1 (validation_checks rt state).2
             (utcnow_isoformat rt tick))).
Proof.
  unfold validate_response. destruct (validation_checks rt state) as [v iss]. simpl.
  destruct (negb v && _); simpl; apply lookup_insert_eq.
Qed.

(** C7 (as stated) fails for an empty final response: its length is below
    50, yet the only issue recorded is the missing response. *)
Lemma empty_response_not_reported_short :
  response_short empty_response_state /\
  recorded_issues terse_runtime empty_response_state = ["No final response generated"] /\
  "Response too short" ∉ recorded_issues terse_runtime empty_response_state.
Proof.
  split; [exists ""; split; [done | simpl; lia]|].
  split; [done|]. by intros [[=]|[]%elem_of_nil]%elem_of_cons.
Qed.

(** Finds an issue in a concatenation of issue lists. *)
Ltac pick_issue :=
  simpl; rewrite ?elem_of_app, ?elem_of_cons, ?list_elem_of_singleton;
  repeat first [left; reflexivity | right];
  reflexivity.

(** C7 (as amended): the validator rejects a state if and only if the final
    response is absent or empty, or the total confidence is strictly below
    0.3 (exactly 0.3 passes), or there are more than two errors, or the
    final response has fewer than 50 characters.  A missing response, a low
    confidence and an excess of errors are each recorded among the issues;
    the short length is recorded when the response is not empty (an empty
    response is recorded as missing only).  Nothing is recorded for a state
    that passes.  The check calls no agent and no language model: it only
    formats a number and reads the clock. *)
Theorem validator_gate settings rt (tick : nat) (state : WorkflowState) :
  (rejects rt state <->
   response_missing state \/ low_confidence state \/ too_many_errors state \/
   response_short state) /\
  (total_confidence state = 0.3%float -> ~ low_confidence state) /\
  (response_missing state ->
   "No final response generated" ∈ recorded_issues rt state) /\
  (low_confidence state ->
   ("Low confidence: " +:+ format_2f rt (total_confidence state))
     ∈ recorded_issues rt state) /\
  (too_many_errors state ->
   ("Too many errors: " +:+ pretty (length (errors state))) ∈ recorded_issues rt state) /\
  (response_short state -> final_response state <> Some "" ->
   "Response too short" ∈ recorded_issues rt state) /\
  (~ rejects rt state -> recorded_issues rt state = []) /\
  metadata (validate_response settings rt tick state) !! "validation" =
    Some (MetaValidation
            (mkValidation (validation_checks rt state).1
               (recorded_issues rt state) (utcnow_isoformat rt tick))) /\
  (forall rt' : Runtime,
     format_2f rt' (total_confidence state) = format_2f rt (total_confidence state) ->
     utcnow_isoformat rt' tick = utcnow_isoformat rt tick ->
     validate_response settings rt' tick state = validate_response settings rt tick state).
Proof.
  assert (Hissues : recorded_issues rt state =
    (if negb (truthy (final_response state))
     then ["No final response generated"] else []) ++
    (if PrimFloat.ltb (total_confidence state) 0.3
     then ["Low confidence: " +:+ format_2f rt (total_confidence state)] else []) ++
    (if bool_decide (2 < length (errors state))
     then ["Too many errors: " +:+ pretty (length (errors state))] else []) ++
    (if truthy (final_response state) &&
        bool_decide (String.length (default "" (final_response state)) < 50)
     then ["Response too short"] else [])).
  { unfold recorded_issues. by rewrite validation_checks_eq. }
  split; [apply rejects_iff|].
  split; [unfold low_confidence; by intros ->|].
  split.
  { intros H%truthy_false. rewrite Hissues, H. pick_issue. }
  split.
  { unfold low_confidence. intros H. rewrite Hissues, H. pick_issue. }
  split.
  { unfold too_many_errors. intros H. rewrite Hissues, (bool_decide_true (2 < _)) by lia.
    pick_issue. }
  split.
  { intros (s & Hs & Hlen) Hne.
    assert (Ht : truthy (final_response state) = true).
    { apply truthy_true. exists s. split; [done | congruence]. }
    rewrite Hissues, Ht, Hs. simpl. rewrite (bool_decide_true (String.length s < 50)) by done.
    pick_issue. }
  split.
  { unfold rejects. rewrite Hissues, validation_checks_eq. simpl.
    intros H%not_false_is_true%negb_true_iff.
    apply orb_false_elim in H as [[[-> ->]%orb_false_elim ->]%orb_false_elim ->]. done. }
  split; [apply validate_metadata|].
  intros rt' Hfmt Hnow. unfold validate_response.
  rewrite !validation_checks_eq. cbv zeta. by rewrite Hfmt, Hnow.
Qed.

(** ** The retry decision *)

(** The edge taken after the validator, computed from the verdict and the
    counter the validator leaves behind. *)
Lemma validator_step settings rt (tick : nat) (state : WorkflowState) :
  let state' := validate_response settings rt tick state in
  step settings rt tick N_validator state =
  Returned
    (if negb (validation_checks rt state).1 &&
        bool_decide (retry_count state' < retry_max_attempts settings)%Z
     then N_router else N_END,
     state').
Proof.
  intros state'. unfold step. cbv zeta. fold state'. unfold should_retry.
  unfold state' at 1. rewrite validate_metadata. cbn [is_valid].
  by destruct (negb _ && _).
Qed.

(** The three outcomes of the validator.  A state that passes is COMPLETED
    and the run ends; a rejected state whose counter has reached the bound
    is FAILED and the run ends; a rejected state whose counter is below the
    bound has its counter incremented and stays PROCESSING, and the run goes
    back to the router only if the incremented counter is still below the
    bound. *)
Lemma validator_outcomes settings rt (tick : nat) (state : WorkflowState) :
  let state' := validate_response settings rt tick state in
  let bound := retry_max_attempts settings in
  (~ rejects rt state ->
   current_status state' = COMPLETED /\ retry_count state' = retry_count state /\
   step settings rt tick N_validator state = Returned (N_END, state')) /\
  (rejects rt state -> (retry_count state >= bound)%Z ->
   current_status state' = FAILED /\ retry_count state' = retry_count state /\
   step settings rt tick N_validator state = Returned (N_END, state')) /\
  (rejects rt state -> (retry_count state < bound)%Z ->
   current_status state' = PROCESSING /\
   retry_count state' = (retry_count state + 1)%Z /\
   step settings rt tick N_validator state =
   Returned (if bool_decide (retry_count state + 1 < bound)%Z then N_router else N_END,
             state')).
Proof.
  intros state' bound.
  unfold rejects.
  assert (Hcases :
    ((validation_checks rt state).1 = true /\
     current_status state' = COMPLETED /\ retry_count state' = retry_count state) \/
    ((validation_checks rt state).1 = false /\ (retry_count state >= bound)%Z /\
     current_status state' = FAILED /\ retry_count state' = retry_count state) \/
    ((validation_checks rt state).1 = false /\ (retry_count state < bound)%Z /\
     current_status state' = PROCESSING /\
     retry_count state' = (retry_count state + 1)%Z)).
  { unfold state', validate_response, bound.
    destruct (validation_checks rt state) as [[] iss]; simpl; [by left|].
    case_bool_decide; simpl; [right; right | right; left]; repeat split; try done; lia. }
  pose proof (validator_step settings rt tick state) as Hstep. cbv zeta in Hstep.
  fold state' bound in Hstep.
  destruct Hcases as [(Hv & Hs & Hr) | [(Hv & Hb & Hs & Hr) | (Hv & Hb & Hs & Hr)]];
    rewrite Hv, Hr in Hstep; simpl in Hstep.
  - repeat split; try done; congruence.
  - rewrite bool_decide_false in Hstep by lia.
    repeat split; try done; try congruence; lia.
  - repeat split; try done; try congruence; lia.
Qed.

Lemma advance_reachable settings rt (k : nat) (start : WorkflowState) (n : Node)
    (state : WorkflowState) :
  advance settings rt k start = Some (n, state) ->
  reachable settings rt start n k state.
Proof.
  revert n state. induction k as [|k IH]; intros n state; simpl.
  - intros [= <- <-]. apply reachable_start.
  - destruct (advance settings rt k start) as [[n0 state0]|]; [|done].
    destruct (decide (n0 = N_END)) as [|Hn0]; [done|].
    destruct (step settings rt k n0 state0) as [[n1 output]|] eqn:Hstep; [|done].
    intros [= <- <-]. eapply reachable_step; [by apply IH | done | done].
Qed.

Lemma advance_reachable_state settings rt (k : nat) (start : WorkflowState) (n : Node) :
  fst <$> advance settings rt k start = Some n ->
  reachable settings rt start n k
    (match advance settings rt k start with
     | Some (_, state) => state
     | None => start
     end).
Proof.
  destruct (advance settings rt k start) as [[n0 state]|] eqn:Hk; [|done].
  intros [= <-]. by apply advance_reachable.
Qed.

(** C4 fails on the last allowed retry.  In the run of a query whose answers
    are always too short, with the default bound of 3, the validator is
    reached a third time with counter 2: it rejects, increments the counter
    to 3 and leaves the status PROCESSING, but the edge then taken leads to
    END, not back to the router. *)
Theorem last_retry_goes_to_end :
  let state := third_validation in
  let state' := validate_response default_settings terse_runtime 11 state in
  reachable default_settings terse_runtime research_query N_validator 11 state /\
  rejects terse_runtime state /\
  retry_count state = 2%Z /\
  retry_max_attempts default_settings = 3%Z /\
  retry_count state' = 3%Z /\
  current_status state' = PROCESSING /\
  should_retry default_settings state' = Returned "end" /\
  step default_settings terse_runtime 11 N_validator state = Returned (N_END, state').
Proof.
  intros state state'. subst state state'.
  split.
  { unfold third_validation.
    apply (advance_reachable_state default_settings terse_runtime 11 research_query
             N_validator).
    by vm_compute. }
  split; [by vm_compute|]. split; [by vm_compute|]. split; [done|].
  split; [by vm_compute|]. split; [by vm_compute|]. split; [by vm_compute|].
  rewrite validator_step.
  replace (negb _ && _) with false by (by vm_compute). reflexivity.
Qed.

(** ** What [execute] returns *)

(** The chunk of a node holds none of the keys [execute] reads: the names
    of the nodes and the names of the fields are different strings. *)
Lemma chunk_reads_default (query_id : string) (n : Node) (output : WorkflowState) :
  let final_state := chunk_of n output in
  mkExecutionResult query_id
    (chunk_get final_state "current_status" FAILED)
    (chunk_get final_state "final_response" "No response generated")
    (chunk_get final_state "total_confidence" 0.0%float)
    (chunk_get final_state "agents_visited" [])
    (chunk_get final_state "processing_times" ∅)
    (chunk_get final_state "errors" [])
    (chunk_get final_state "metadata" ∅) =
  mkExecutionResult query_id (Plain FAILED) (Plain "No response generated")
    (Plain 0.0%float) (Plain []) (Plain ∅) (Plain []) (Plain ∅).
Proof. by destruct n. Qed.

(** A stream that ends has a last chunk, and it is the chunk of a node. *)
Lemma astream_last settings rt (limit tick : nat) (n : Node) (state : WorkflowState)
    (chunks : list Chunk) :
  astream settings rt limit tick n state = Returned chunks ->
  n <> N_END ->
  exists (m : Node) (output : WorkflowState), last chunks = Some (chunk_of m output).
Proof.
  revert tick n state chunks. induction limit as [|limit IH];
    intros tick n state chunks Hstream Hn; [by destruct n|].
  assert (Hunfold : astream settings rt (S limit) tick n state =
    match step settings rt tick n state with
    | Returned (n', output) =>
        match astream settings rt limit (S tick) n' (reduce output) with
        | Returned chunks => Returned (chunk_of n output :: chunks)
        | Raised e => Raised e
        end
    | Raised e => Raised e
    end) by by destruct n.
  rewrite Hunfold in Hstream.
  destruct (step settings rt tick n state) as [[n' output]|e]; [|done].
  destruct (astream settings rt limit (S tick) n' (reduce output)) as [rest|e] eqn:Hrest;
    [|done].
  injection Hstream as <-.
  destruct (decide (n' = N_END)) as [-> | Hn'].
  - assert (rest = []) as -> by (destruct limit; simpl in Hrest; congruence).
    by exists n, output.
  - destruct (IH _ _ _ _ Hrest Hn') as (m & out & Hlast).
    exists m, out. destruct rest as [|c rest]; [done|]. exact Hlast.
Qed.

(** The stream and the run are the same run: they raise the same exception,
    and the stream ends when the run reaches [END]. *)
Lemma astream_run settings rt (limit tick : nat) (n : Node) (state : WorkflowState) :
  match run settings rt limit tick n state with
  | Returned _ => exists chunks, astream settings rt limit tick n state = Returned chunks
  | Raised e => astream settings rt limit tick n state = Raised e
  end.
Proof.
  revert tick n state. induction limit as [|limit IH]; intros tick n state.
  - destruct n; simpl; by eauto.
  - destruct (decide (n = N_END)) as [-> | Hn]; [simpl; by eauto|].
    rewrite run_unfold by done.
    assert (Hunfold : astream settings rt (S limit) tick n state =
      match step settings rt tick n state with
      | Returned (n', output) =>
          match astream settings rt limit (S tick) n' (reduce output) with
          | Returned chunks => Returned (chunk_of n output :: chunks)
          | Raised e => Raised e
          end
      | Raised e => Raised e
      end) by by destruct n.
    rewrite Hunfold.
    destruct (step settings rt tick n state) as [[n' output]|e]; [|done].
    specialize (IH (S tick) n' (reduce output)).
    destruct (run settings rt limit (S tick) n' (reduce output)) as [final|e].
    + destruct IH as [chunks ->]. by eexists.
    + by rewrite IH.
Qed.

(** The two results of [execute]: the record of the defaults when the run
    reaches [END], whatever state the graph then holds, and the record of
    the exception when the run raises. *)
Lemma execute_result settings rt (recursion_limit : nat) (query_id query : string)
    (query_type : QueryType) (meta : option (gmap string MetaValue)) :
  match run settings rt recursion_limit 0 N_router
          (initial_state query_id query query_type meta) with
  | Returned _ =>
      execute settings rt recursion_limit query_id query query_type meta =
      mkExecutionResult query_id (Plain FAILED) (Plain "No response generated")
        (Plain 0.0%float) (Plain []) (Plain ∅) (Plain []) (Plain ∅)
  | Raised e =>
      execute settings rt recursion_limit query_id query query_type meta =
      mkExecutionResult query_id (Plain FAILED)
        (Plain ("Workflow execution failed: " +:+ exn_str e))
        (Plain 0.0%float) (Plain []) (Plain ∅) (Plain [exn_str e])
        (Plain {["error_type" := MetaOpaque (exn_type e)]})
  end.
Proof.
  pose proof (astream_run settings rt recursion_limit 0 N_router
                (initial_state query_id query query_type meta)) as Hstream.
  unfold execute.
  destruct (run settings rt recursion_limit 0 N_router _) as [final|e].
  - destruct Hstream as [chunks Hchunks]. rewrite Hchunks.
    destruct (astream_last _ _ _ _ _ _ _ Hchunks) as (m & output & ->); [done|].
    apply chunk_reads_default.
  - by rewrite Hstream.
Qed.

(** C1: for every query, every behaviour of the collaborators and every
    recursion limit, the status of the record [execute] returns is COMPLETED,
    FAILED or CANCELLED, never PENDING or PROCESSING.  It is in fact always
    FAILED: the except branch says so, and a run that reaches [END] is read
    through [final_state.get] on a chunk keyed by the node's name, which
    gives the default.  This covers the path named in the claim: the run of
    a query whose answers are always too short ends with the retry counter
    at the bound and PROCESSING in the graph's state, and [execute] reports
    FAILED. *)
Theorem execute_status_is_final settings rt (recursion_limit : nat)
    (query_id query : string) (query_type : QueryType)
    (meta : option (gmap string MetaValue)) :
  let result := execute settings rt recursion_limit query_id query query_type meta in
  (result_status result = Plain COMPLETED \/
   result_status result = Plain FAILED \/
   result_status result = Plain CANCELLED) /\
  result_status result <> Plain PENDING /\
  result_status result <> Plain PROCESSING /\
  result_status result = Plain FAILED /\
  (reachable default_settings terse_runtime research_query N_END 12 terse_final /\
   rejects terse_runtime third_validation /\
   retry_count terse_final = retry_max_attempts default_settings /\
   current_status terse_final = PROCESSING /\
   result_status
     (execute default_settings terse_runtime 25 "q1" "what is a monad" RESEARCH None) =
   Plain FAILED).
Proof.
  intros result.
  assert (Hfailed : forall settings rt limit query_id query query_type meta,
    result_status (execute settings rt limit query_id query query_type meta) =
    Plain FAILED).
  { clear. intros settings rt limit query_id query query_type meta.
    pose proof (execute_result settings rt limit query_id query query_type meta) as H.
    destruct (run _ _ _ _ _ _); by rewrite H. }
  unfold result. rewrite Hfailed.
  split; [auto|]. split; [done|]. split; [done|]. split; [done|].
  split.
  { unfold terse_final.
    apply (advance_reachable_state default_settings terse_runtime 12 research_query N_END).
    by vm_compute. }
  split; [by vm_compute|]. split; [by vm_compute|]. split; [by vm_compute|].
  apply Hfailed.
Qed.

(** ** The synthesizer *)

Lemma weight_spec_weight (r : AgentResponse) : weight r = spec_weight r.
Proof. unfold weight, spec_weight. by destruct (error r). Qed.

(** The loop of the source computes the two sums of the specification. *)
Lemma accumulate_confidence_sums (responses : Dict.t AgentResponse) :
  accumulate_confidence responses =
  (spec_weighted_sum (Dict.values responses), spec_total_weight (Dict.values responses)).
Proof.
  unfold accumulate_confidence, spec_weighted_sum, spec_total_weight, fsum, Dict.values.
  generalize 0.0%float at 1 3. generalize 0.0%float.
  induction responses as [|[k r] l IH]; intros b a; [done|].
  simpl. rewrite IH. by rewrite weight_spec_weight.
Qed.

Lemma weighted_confidence_eq (responses : Dict.t AgentResponse) :
  weighted_confidence responses =
  if PrimFloat.ltb 0.0 (spec_total_weight (Dict.values responses))
  then (spec_weighted_sum (Dict.values responses) /
        spec_total_weight (Dict.values responses))%float
  else 0.5%float.
Proof. unfold weighted_confidence. by rewrite accumulate_confidence_sums. Qed.

(** With one to three responses (there are three roles) the total weight is
    positive. *)
Lemma total_weight_positive (responses : list AgentResponse) :
  1 <= length responses <= 3 ->
  PrimFloat.ltb 0.0 (spec_total_weight responses) = true.
Proof.
  destruct responses as [|r1 [|r2 [|r3 [|r4 l]]]]; simpl; try lia; intros _;
    unfold spec_total_weight, fsum, spec_weight; simpl;
    repeat case_bool_decide; by vm_compute.
Qed.

(** The synthesizer on two or more responses. *)
Lemma synthesize_many rt (tick : nat) (state : WorkflowState) :
  2 <= length (agent_responses state) ->
  synthesize_responses rt tick state =
  match llm_ainvoke rt tick (synthesis_prompt rt state) with
  | Returned synthesized =>
      let state := set_total_confidence (weighted_confidence (agent_responses state)) state in
      let state := set_final_response (Some synthesized) state in
      set_messages
        (messages state ++
         [SystemMessage ("Synthesis completed with confidence: " +:+
                         format_2f rt (total_confidence state))])
        state
  | Raised e =>
      let state := set_errors (errors state ++ ["Synthesis: " +:+ exn_str e]) state in
      let state := set_final_response (Some "Failed to synthesize responses") state in
      set_total_confidence 0.0 state
  end.
Proof.
  unfold synthesize_responses.
  destruct (agent_responses state) as [|[k1 r1] [|[k2 r2] l]]; simpl; [lia|lia|done].
Qed.

(** C6: on the path where nothing raises, what the synthesizer writes is
    determined by [agent_responses].  With no response the final response
    is the fixed text and the confidence is 0.0.  With exactly one, its
    content and confidence are passed through, and the result is the same
    whatever the collaborators are: no combining call is made.  With two or
    more, the final response is the combined text and the confidence is
    [sum(confidence_i * w_i) / sum(w_i)] when the total weight is positive
    (always so with at most three responses) and 0.5 when it is 0.  The
    confidence is the same for any two states with the same responses.
    For the confidences 0.9 (no error) and 0.2 (error) it is
    0.6666666666666666. *)
Theorem synthesizer_output rt (tick : nat) (state : WorkflowState) :
  let state' := synthesize_responses rt tick state in
  let responses := Dict.values (agent_responses state) in
  (agent_responses state = [] ->
   final_response state' = Some "No agent responses available" /\
   total_confidence state' = 0.0%float) /\
  (forall (k : string) (r : AgentResponse),
     agent_responses state = [(k, r)] ->
     final_response state' = Some (content r) /\
     total_confidence state' = confidence r /\
     forall rt' tick', synthesize_responses rt' tick' state = state') /\
  (forall text : string,
     2 <= length responses ->
     llm_ainvoke rt tick (synthesis_prompt rt state) = Returned text ->
     final_response state' = Some text /\
     (PrimFloat.ltb 0.0 (spec_total_weight responses) = true ->
      total_confidence state' =
      (spec_weighted_sum responses / spec_total_weight responses)%float) /\
     (length responses <= 3 ->
      total_confidence state' =
      (spec_weighted_sum responses / spec_total_weight responses)%float) /\
     (spec_total_weight responses = 0.0%float -> total_confidence state' = 0.5%float)) /\
  (forall rt2 tick2 (state2 : WorkflowState),
     agent_responses state2 = agent_responses state ->
     (2 <= length responses ->
      (exists text, llm_ainvoke rt tick (synthesis_prompt rt state) = Returned text) /\
      (exists text, llm_ainvoke rt2 tick2 (synthesis_prompt rt2 state2) = Returned text)) ->
     total_confidence (synthesize_responses rt2 tick2 state2) = total_confidence state' /\
     (length responses <= 1 ->
      final_response (synthesize_responses rt2 tick2 state2) = final_response state')) /\
  weighted_confidence two_responses = 0.6666666666666666%float /\
  PrimFloat.ltb (abs (weighted_confidence two_responses - 0.6667)) 0.00005 = true.
Proof.
  intros state' responses.
  split; [|split; [|split; [|split]]].
  - unfold state', synthesize_responses. by intros ->.
  - unfold state', synthesize_responses. by intros k r ->.
  - intros text Hlen Hllm.
    assert (Hlen' : 2 <= length (agent_responses state)).
    { unfold responses, Dict.values in Hlen. by rewrite length_fmap in Hlen. }
    unfold state'. rewrite synthesize_many, Hllm by done. simpl.
    rewrite weighted_confidence_eq. fold responses.
    split; [done|]. split; [by intros ->|]. split.
    + intros Hle. by rewrite total_weight_positive by lia.
    + by intros ->.
  - intros rt2 tick2 state2 Heq Hok. unfold responses in *. clear responses.
    unfold Dict.values in *. rewrite length_fmap in *.
    destruct (decide (2 <= length (agent_responses state))) as [Hmany | Hfew].
    + destruct (Hok Hmany) as [[text Htext] [text2 Htext2]].
      unfold state'. rewrite !synthesize_many by (by rewrite ?Heq).
      rewrite Htext, Htext2. simpl. rewrite Heq. split; [done | lia].
    + unfold state', synthesize_responses. rewrite Heq.
      destruct (agent_responses state) as [|[k1 r1] [|[k2 r2] l]]; [done | done |].
      simpl in Hfew. lia.
  - split; by vm_compute.
Qed.

(** C8 (as stated) fails: when the combining call raises, the final
    response is not the text used for an empty set of responses. *)
Lemma failed_synthesis_text :
  let state' := synthesize_responses failing_runtime 0 two_response_state in
  llm_ainvoke failing_runtime 0 (synthesis_prompt failing_runtime two_response_state)
    = Raised (Exn "ConnectionError" "model unreachable") /\
  final_response state' = Some "Failed to synthesize responses" /\
  final_response state' <> Some "No agent responses available".
Proof. repeat split. by vm_compute. Qed.

(** C8 (as amended): when the combining call raises, the synthesizer writes
    the fixed text ["Failed to synthesize responses"] and the confidence
    0.0, appends the error to [errors], and the failure goes no further: the
    graph moves on to the validator with that state. *)
Theorem synthesis_failure_absorbed settings rt (tick : nat) (state : WorkflowState)
    (e : exn) :
  2 <= length (agent_responses state) ->
  llm_ainvoke rt tick (synthesis_prompt rt state) = Raised e ->
  let state' := synthesize_responses rt tick state in
  final_response state' = Some "Failed to synthesize responses" /\
  total_confidence state' = 0.0%float /\
  errors state' = errors state ++ ["Synthesis: " +:+ exn_str e] /\
  step settings rt tick N_synthesizer state = Returned (N_validator, state').
Proof.
  intros Hlen Hllm state'. unfold state'.
  split; [|split; [|split]]; try reflexivity;
    by rewrite synthesize_many, Hllm by done.
Qed.

Lemma synthesis_failure_absorbed_witness :
  let state' := synthesize_responses failing_runtime 0 two_response_state in
  final_response state' = Some "Failed to synthesize responses" /\
  total_confidence state' = 0.0%float /\
  errors state' = errors two_response_state ++ ["Synthesis: model unreachable"] /\
  step default_settings failing_runtime 0 N_synthesizer two_response_state
    = Returned (N_validator, state').
Proof.
  apply (synthesis_failure_absorbed default_settings failing_runtime 0 two_response_state
           (Exn "ConnectionError" "model unreachable")).
  - simpl. lia.
  - reflexivity.
Defined.

(** ** The half of the visited-set invariant that the code keeps *)

Lemma apply_node_visited settings rt (n : Node) (tick : nat) (state : WorkflowState) :
  (forall k : string, k ∈ agents_visited state -> k ∈ Dict.keys (agent_responses state)) ->
  let state' := apply_node settings rt n tick state in
  forall k : string, k ∈ agents_visited state' -> k ∈ Dict.keys (agent_responses state').
Proof.
  intros Hinv state'. subst state'.
  assert (Hagent : forall r : Role,
    forall k : string,
      k ∈ agents_visited (agent_node rt r tick state) ->
      k ∈ Dict.keys (agent_responses (agent_node rt r tick state))).
  { intros r k. destruct (process_call rt r tick state) as [response|e] eqn:Hcall.
    - destruct (agent_node_returned rt r tick state response Hcall) as (-> & _ & _ & -> & _).
      rewrite elem_of_app, list_elem_of_singleton, dict_keys_set. intros [?|?]; auto.
    - rewrite (agent_node_raised rt r tick state e Hcall). simpl.
      rewrite dict_keys_set. auto. }
  destruct n; unfold apply_node.
  - unfold route_query. by destruct (decision_agent_route_query _ _ _ _).
  - apply (Hagent Role_research).
  - apply (Hagent Role_code).
  - apply (Hagent Role_decision).
  - unfold synthesize_responses.
    destruct (agent_responses state) as [|[k1 r1] [|[k2 r2] l]] eqn:Hresp;
      try destruct (llm_ainvoke _ _ _); simpl; by rewrite Hresp.
  - unfold validate_response. destruct (validation_checks rt state) as [v iss].
    by destruct (negb v && _).
  - done.
Qed.

(** Every role in [agents_visited] has an entry in [agent_responses], in
    every state of every run. *)
Lemma visited_have_responses settings rt (query_id query : string) (query_type : QueryType)
    (meta : option (gmap string MetaValue)) (n : Node) (tick : nat) (state : WorkflowState) :
  reachable settings rt (initial_state query_id query query_type meta) n tick state ->
  forall k : string, k ∈ agents_visited state -> k ∈ Dict.keys (agent_responses state).
Proof.
  induction 1 as [|n tick state n' state' _ IH _ Hstep].
  - by intros k ?%elem_of_nil.
  - apply step_apply_node in Hstep as ->. by apply apply_node_visited.
Qed.

(** * Further properties of the workflow *)

(** ** The router *)

Lemma route_query_frame rt (tick : nat) (state : WorkflowState) :
  let state' := route_query rt tick state in
  query_type state' = query_type state /\
  original_query state' = original_query state /\
  agents_visited state' = agents_visited state /\
  agent_responses state' = agent_responses state /\
  confidence_scores state' = confidence_scores state /\
  errors state' = errors state /\
  current_status state' = PROCESSING.
Proof. unfold route_query. by destruct (decision_agent_route_query _ _ _ _). Qed.


(** ** Routing after the code node *)

(** After the code node the run goes to the research node when
    ["research"] has not been visited and either the query type is DECISION
    or the score stored for the code agent is below 0.7, a missing score
    counting as 0; otherwise it goes to the synthesizer.  A code agent that
    returned is judged by the confidence of its response.  One that raised
    leaves [confidence_scores] as it was, so it is judged by the score an
    earlier pass stored, and by 0 only when there is none: on the second
    pass of a run whose code agent first answered with confidence 0.9 and
    then timed out, the run goes on to the synthesizer although the research
    agent has not been visited. *)
Theorem after_code_transition (state : WorkflowState) :
  let wants_research :=
    ("research" ∉ agents_visited state) /\
    (query_type state = DECISION \/ code_score_low state) in
  (wants_research -> after_code state = "research") /\
  (~ wants_research -> after_code state = "synthesizer") /\
  follow code_edges "research" = Returned N_research /\
  follow code_edges "synthesizer" = Returned N_synthesizer /\
  (forall settings rt tick,
     step settings rt tick N_code state =
     Returned (if decide (after_code (code_node rt tick state) = "research")
               then N_research else N_synthesizer,
               code_node rt tick state)) /\
  (forall rt tick (response : AgentResponse),
     process_call rt Role_code tick state = Returned response ->
     code_score_low (code_node rt tick state) <->
     PrimFloat.ltb (confidence response) 0.7 = true) /\
  (forall rt tick (e : exn),
     process_call rt Role_code tick state = Raised e ->
     confidence_scores (code_node rt tick state) = confidence_scores state /\
     (code_score_low (code_node rt tick state) <-> code_score_low state)) /\
  (let retried := second_code_pass in
   reachable default_settings flaky_code_runtime code_query N_code 5 retried /\
   process_call flaky_code_runtime Role_code 5 retried =
     Raised (Exn "TimeoutError" "timed out") /\
   confidence_scores retried !! "code" = Some 0.9%float /\
   agents_visited retried = ["code"] /\
   step default_settings flaky_code_runtime 5 N_code retried =
     Returned (N_synthesizer, code_node flaky_code_runtime 5 retried)).
Proof.
  intros wants_research.
  assert (Hiff : after_code state = "research" <-> wants_research).
  { unfold after_code, wants_research, code_score_low.
    destruct (confidence_scores state !! "code") as [c|]; simpl;
      [destruct (PrimFloat.ltb c 0.7)|];
      repeat case_bool_decide; simpl; split; try done; try tauto;
      intros [? [?|?]]; done. }
  assert (Hcases : after_code state = "research" \/ after_code state = "synthesizer").
  { unfold after_code. destruct (_ && _); tauto. }
  assert (Hstep : forall settings rt tick state,
    step settings rt tick N_code state =
    Returned (if decide (after_code (code_node rt tick state) = "research")
              then N_research else N_synthesizer,
              code_node rt tick state)).
  { clear. intros settings rt tick state. unfold step.
    generalize (code_node rt tick state).
    intros state'. unfold after_code. by destruct (_ && _). }
  split; [by intros ?%Hiff|].
  split; [intros Hno; destruct Hcases as [H%Hiff|H]; done|].
  split; [done|]. split; [done|].
  split; [intros; apply Hstep|].
  split; [|split].
  - intros rt tick response Hcall.
    destruct (agent_node_returned rt Role_code tick state response Hcall)
      as (_ & Hscores & _).
    unfold code_score_low. simpl in Hscores. rewrite Hscores.
    by rewrite lookup_insert_eq.
  - intros rt tick e Hcall. unfold code_score_low.
    pose proof (agent_node_raised rt Role_code tick state e Hcall) as Heq.
    simpl in Heq. by rewrite Heq.
  - intros retried. subst retried. split.
    { unfold second_code_pass.
      apply (advance_reachable_state default_settings flaky_code_runtime 5 code_query N_code).
      by vm_compute. }
    split; [by vm_compute|]. split; [by vm_compute|]. split; [by vm_compute|].
    rewrite Hstep.
    destruct (decide (after_code (code_node flaky_code_runtime 5 second_code_pass) =
                      "research")) as [Hr|_]; [|reflexivity].
    exfalso. revert Hr. by vm_compute.
Qed.

(** ** The end of a run and the record of [execute] *)

(** Only the validator leads to END. *)
Lemma step_into_end settings rt (tick : nat) (n : Node) (state state' : WorkflowState) :
  step settings rt tick n state = Returned (N_END, state') ->
  n <> N_END ->
  n = N_validator /\ state' = validate_response settings rt tick state.
Proof.
  intros Hstep Hn. pose proof (step_apply_node _ _ _ _ _ _ _ Hstep) as Hstate.
  destruct n; try done; exfalso; revert Hstep;
    unfold step, determine_next_agent, after_research, after_code, after_decision;
    repeat match goal with
           | |- context [if ?b then _ else _] => destruct b
           | |- context [match query_type ?s with _ => _ end] => destruct (query_type s)
           end; done.
Qed.

Lemma validate_status settings rt (tick : nat) (state : WorkflowState) :
  let state' := validate_response settings rt tick state in
  (current_status state' = COMPLETED /\ (validation_checks rt state).1 = true) \/
  ((current_status state' = FAILED \/ current_status state' = PROCESSING) /\
   (validation_checks rt state).1 = false).
Proof.
  unfold validate_response. destruct (validation_checks rt state) as [[] iss]; simpl.
  - by left.
  - right. destruct (bool_decide _); simpl; auto.
Qed.

(** A state at END is the one merged from the validator's output. *)
Lemma end_after_validator settings rt (start final : WorkflowState) (tick' : nat) :
  reachable settings rt start N_END tick' final ->
  exists (tick : nat) (state : WorkflowState),
    reachable settings rt start N_validator tick state /\
    final = reduce (validate_response settings rt tick state).
Proof.
  intros Hend.
  inversion Hend as [|n tick state n' output Hreach Hn Hstep]; subst.
  destruct (step_into_end _ _ _ _ _ _ Hstep Hn) as [-> ->]. by exists tick, state.
Qed.

(** A run that returns hands back the state merged from the validator's
    output. *)
Lemma run_ends_at_validator settings rt (start : WorkflowState) (limit : nat)
    (final : WorkflowState) :
  run settings rt limit 0 N_router start = Returned final ->
  exists (tick : nat) (state : WorkflowState),
    reachable settings rt start N_validator tick state /\
    final = reduce (validate_response settings rt tick state).
Proof.
  intros Hrun.
  destruct (run_reachable settings rt start limit 0 N_router start final) as [tick' Hend];
    [apply reachable_start | done |].
  by eapply end_after_validator.
Qed.

(** [execute] never hands over what the workflow produced.  When the run
    reaches [END] the record holds the defaults of the seven reads: FAILED,
    ["No response generated"], 0.0 and empty collections, whatever the state
    of the graph is; when the run raises, the record is the one of the
    except branch.  So a run whose validator accepted the answer and set
    COMPLETED is reported as FAILED without a response: such a run is the
    one of a RESEARCH query whose research agent gives a full answer with
    confidence 0.9. *)
Theorem execute_reports_defaults settings rt (recursion_limit : nat)
    (query_id query : string) (query_type : QueryType)
    (meta : option (gmap string MetaValue)) :
  let start := initial_state query_id query query_type meta in
  let result := execute settings rt recursion_limit query_id query query_type meta in
  (forall final : WorkflowState,
     run settings rt recursion_limit 0 N_router start = Returned final ->
     result =
     mkExecutionResult query_id (Plain FAILED) (Plain "No response generated")
       (Plain 0.0%float) (Plain []) (Plain ∅) (Plain []) (Plain ∅)) /\
  (forall e : exn,
     run settings rt recursion_limit 0 N_router start = Raised e ->
     result =
     mkExecutionResult query_id (Plain FAILED)
       (Plain ("Workflow execution failed: " +:+ exn_str e))
       (Plain 0.0%float) (Plain []) (Plain ∅) (Plain [exn_str e])
       (Plain {["error_type" := MetaOpaque (exn_type e)]})) /\
  (reachable default_settings thorough_runtime research_query N_END 4 thorough_final /\
   current_status thorough_final = COMPLETED /\
   final_response thorough_final = Some thorough_answer /\
   total_confidence thorough_final = 0.9%float /\
   agents_visited thorough_final = ["research"] /\
   execute default_settings thorough_runtime 25 "q1" "what is a monad" RESEARCH None =
   mkExecutionResult "q1" (Plain FAILED) (Plain "No response generated")
     (Plain 0.0%float) (Plain []) (Plain ∅) (Plain []) (Plain ∅)).
Proof.
  intros start result.
  pose proof (execute_result settings rt recursion_limit query_id query query_type meta)
    as Hresult.
  fold start result in Hresult.
  split; [|split].
  - intros final Hrun. by rewrite Hrun in Hresult.
  - intros e Hrun. by rewrite Hrun in Hresult.
  - split.
    { unfold thorough_final.
      apply (advance_reachable_state default_settings thorough_runtime 4 research_query
               N_END).
      by vm_compute. }
    split; [by vm_compute|]. split; [by vm_compute|]. split; [by vm_compute|].
    split; by vm_compute.
Qed.

(** ** The logs only grow *)

(** No node removes or rewrites an entry of [agents_visited], [errors] or
    [messages]: each step appends to them or leaves them alone, and the
    message list the graph holds after merging the node's output still
    starts with the list it held before. *)
Theorem logs_append_only settings rt (tick : nat) (n n' : Node)
    (state state' : WorkflowState) :
  step settings rt tick n state = Returned (n', state') ->
  (exists new, agents_visited state' = agents_visited state ++ new) /\
  (exists new, errors state' = errors state ++ new) /\
  (exists new, messages state' = messages state ++ new) /\
  (exists new, messages (reduce state') = messages state ++ new).
Proof.
  intros Hstep.
  cut ((exists new, agents_visited state' = agents_visited state ++ new) /\
       (exists new, errors state' = errors state ++ new) /\
       (exists new, messages state' = messages state ++ new)).
  { intros (Hv & He & [new Hm]). repeat split; try done; [by exists new|].
    exists (new ++ messages state'). simpl. by rewrite Hm at 1; rewrite <- app_assoc. }
  revert Hstep.
  intros ->%step_apply_node.
  assert (Hnil : forall {A} (l : list A), exists new, l = l ++ new).
  { intros A l. exists []. by rewrite app_nil_r. }
  destruct n; unfold apply_node.
  - unfold route_query. destruct (decision_agent_route_query _ _ _ _); simpl.
    repeat split; by (apply Hnil || eexists).
  - unfold research_node. destruct (research_agent_process _ _ _); simpl;
      repeat split; by (apply Hnil || eexists).
  - unfold code_node. destruct (code_agent_process _ _ _); simpl;
      repeat split; by (apply Hnil || eexists).
  - unfold decision_node. destruct (decision_agent_process _ _ _); simpl;
      repeat split; by (apply Hnil || eexists).
  - unfold synthesize_responses.
    destruct (agent_responses state) as [|[k1 r1] [|[k2 r2] l]];
      try destruct (llm_ainvoke _ _ _); simpl;
      repeat split; by (apply Hnil || eexists).
  - unfold validate_response. destruct (validation_checks rt state) as [v iss].
    destruct (negb v && _); simpl; repeat split; apply Hnil.
  - repeat split; apply Hnil.
Qed.

Lemma logs_append_only_witness :
  (exists new,
     agents_visited (research_node terse_runtime 1 (route_query terse_runtime 0 research_query))
     = agents_visited (route_query terse_runtime 0 research_query) ++ new) /\
  (exists new,
     errors (research_node terse_runtime 1 (route_query terse_runtime 0 research_query))
     = errors (route_query terse_runtime 0 research_query) ++ new) /\
  (exists new,
     messages (research_node terse_runtime 1 (route_query terse_runtime 0 research_query))
     = messages (route_query terse_runtime 0 research_query) ++ new) /\
  (exists new,
     messages (reduce (research_node terse_runtime 1
                         (route_query terse_runtime 0 research_query)))
     = messages (route_query terse_runtime 0 research_query) ++ new).
Proof.
  apply (logs_append_only default_settings terse_runtime 1 N_research N_synthesizer
           (route_query terse_runtime 0 research_query)).
  vm_compute. reflexivity.
Defined.

(** ** The responses are keyed by role *)

Lemma dict_keys_set_cases {V : Type} (d : Dict.t V) (k : string) (v : V) :
  (k ∈ Dict.keys d /\ Dict.keys (Dict.set k v d) = Dict.keys d) \/
  ((k ∉ Dict.keys d) /\ Dict.keys (Dict.set k v d) = Dict.keys d ++ [k]).
Proof.
  unfold Dict.keys. induction d as [|[k0 v0] d IH]; simpl.
  - right. split; [apply not_elem_of_nil | done].
  - destruct (decide (k0 = k)) as [-> | Hne]; simpl.
    + left. split; [apply elem_of_cons; by left | done].
    + destruct IH as [[Hin Heq] | [Hnot Heq]].
      * left. split; [apply elem_of_cons; by right | by f_equal].
      * right. split; [|by f_equal].
        rewrite elem_of_cons. intros [?|?]; [congruence | done].
Qed.

Lemma dict_keys_set_nodup {V : Type} (d : Dict.t V) (k : string) (v : V) :
  NoDup (Dict.keys d) -> NoDup (Dict.keys (Dict.set k v d)).
Proof.
  intros Hd. destruct (dict_keys_set_cases d k v) as [[_ ->] | [Hnot ->]]; [done|].
  apply NoDup_app. split; [done|]. split; [|apply NoDup_singleton].
  intros x Hx ->%list_elem_of_singleton. done.
Qed.

Lemma agent_node_keyed rt (r : Role) (tick : nat) (state : WorkflowState) :
  keyed_by_role state -> keyed_by_role (agent_node rt r tick state).
Proof.
  intros (Hnd & Hkeys & Hvis).
  assert (Hrole : role_key r ∈ role_keys).
  { unfold role_keys. destruct r; simpl; set_unfold; tauto. }
  unfold keyed_by_role.
  destruct (process_call rt r tick state) as [response|e] eqn:Hcall.
  - destruct (agent_node_returned rt r tick state response Hcall) as (-> & _ & _ & -> & _).
    split; [by apply dict_keys_set_nodup|]. split.
    + intros k [-> | ?]%dict_keys_set; auto.
    + intros k [? | ->%list_elem_of_singleton]%elem_of_app; auto.
  - rewrite (agent_node_raised rt r tick state e Hcall). simpl.
    split; [by apply dict_keys_set_nodup|]. split; [|done].
    intros k [-> | ?]%dict_keys_set; auto.
Qed.

Lemma apply_node_keyed settings rt (n : Node) (tick : nat) (state : WorkflowState) :
  keyed_by_role state -> keyed_by_role (apply_node settings rt n tick state).
Proof.
  intros Hk. destruct n; unfold apply_node.
  - unfold keyed_by_role.
    destruct (route_query_frame rt tick state) as (_ & _ & -> & -> & _). done.
  - by apply (agent_node_keyed rt Role_research).
  - by apply (agent_node_keyed rt Role_code).
  - by apply (agent_node_keyed rt Role_decision).
  - unfold synthesize_responses, keyed_by_role in *.
    destruct (agent_responses state) as [|[k1 r1] [|[k2 r2] l]] eqn:Hresp;
      try destruct (llm_ainvoke _ _ _); simpl; by rewrite Hresp.
  - unfold validate_response. destruct (validation_checks rt state) as [v iss].
    by destruct (negb v && _).
  - done.
Qed.

(** In every state of every run, [agent_responses] has at most one entry
    per role and no other key, so at most three entries, and
    [agents_visited] names roles only.  Hence, whenever the synthesizer
    combines two or more responses of a run and the combining call returns,
    the confidence it writes is exactly
    [sum(confidence_i * w_i) / sum(w_i)]: the fallback 0.5 is never used. *)
Theorem responses_keyed_by_role settings rt (query_id query : string)
    (query_type : QueryType) (meta : option (gmap string MetaValue))
    (n : Node) (tick : nat) (state : WorkflowState) :
  reachable settings rt (initial_state query_id query query_type meta) n tick state ->
  NoDup (Dict.keys (agent_responses state)) /\
  (forall k : string,
     k ∈ Dict.keys (agent_responses state) ->
     k = "research" \/ k = "code" \/ k = "decision") /\
  (forall k : string,
     k ∈ agents_visited state -> k = "research" \/ k = "code" \/ k = "decision") /\
  length (agent_responses state) <= 3 /\
  (forall text : string,
     2 <= length (agent_responses state) ->
     llm_ainvoke rt tick (synthesis_prompt rt state) = Returned text ->
     total_confidence (synthesize_responses rt tick state) =
     (spec_weighted_sum (Dict.values (agent_responses state)) /
      spec_total_weight (Dict.values (agent_responses state)))%float).
Proof.
  intros Hreach.
  assert (Hk : keyed_by_role state).
  { induction Hreach as [|n tick state n' state' _ IH _ Hstep].
    - repeat split; [apply NoDup_nil_2 | |]; by intros k ?%elem_of_nil.
    - apply step_apply_node in Hstep as ->. by apply apply_node_keyed. }
  destruct Hk as (Hnd & Hkeys & Hvis).
  assert (Hlen : length (agent_responses state) <= 3).
  { assert (Hsub : Dict.keys (agent_responses state) ⊆+ role_keys).
    { by apply NoDup_submseteq. }
    apply submseteq_length in Hsub. unfold Dict.keys in Hsub.
    rewrite length_fmap in Hsub. exact Hsub. }
  assert (Hroles : forall k, k ∈ role_keys -> k = "research" \/ k = "code" \/ k = "decision").
  { intros k. unfold role_keys. set_unfold. tauto. }
  split; [done|]. split; [auto|]. split; [auto|]. split; [done|].
  intros text Hmany Hllm. rewrite synthesize_many, Hllm by done. simpl.
  rewrite weighted_confidence_eq, total_weight_positive; [done|].
  unfold Dict.values. rewrite length_fmap. lia.
Qed.

Lemma responses_keyed_by_role_witness :
  let state := two_agents_state in
  Dict.keys (agent_responses state) = ["code"; "research"] /\
  NoDup (Dict.keys (agent_responses state)) /\
  (forall k : string,
     k ∈ Dict.keys (agent_responses state) ->
     k = "research" \/ k = "code" \/ k = "decision") /\
  (forall k : string,
     k ∈ agents_visited state -> k = "research" \/ k = "code" \/ k = "decision") /\
  length (agent_responses state) <= 3 /\
  (forall text : string,
     2 <= length (agent_responses state) ->
     llm_ainvoke scored_code_runtime 3 (synthesis_prompt scored_code_runtime state) =
       Returned text ->
     total_confidence (synthesize_responses scored_code_runtime 3 state) =
     (spec_weighted_sum (Dict.values (agent_responses state)) /
      spec_total_weight (Dict.values (agent_responses state)))%float).
Proof.
  split; [by vm_compute|].
  apply (responses_keyed_by_role default_settings scored_code_runtime "q2" "sort a list"
           CODE None N_synthesizer 3 two_agents_state).
  unfold two_agents_state.
  apply (advance_reachable_state default_settings scored_code_runtime 3 code_query
           N_synthesizer).
  by vm_compute.
Defined.

(** ** Termination when the agents return *)

Lemma run_at_end settings rt (limit tick : nat) (state : WorkflowState) :
  run settings rt limit tick N_END state = Returned state.
Proof. by destruct limit. Qed.

Lemma run_steps settings rt (k limit tick : nat) (n n' : Node) (state state' : WorkflowState) :
  steps settings rt k tick n state n' state' ->
  run settings rt (k + limit) tick n state = run settings rt limit (k + tick) n' state'.
Proof.
  induction 1 as [|k tick n state n1 state1 n' state' Hn Hstep _ IH]; [done|].
  change (S k + limit) with (S (k + limit)).
  rewrite run_unfold, Hstep, IH by done. f_equal. lia.
Qed.


(** More fuel does not change the result of a run that returns. *)
Lemma run_fuel_mono settings rt (limit limit' tick : nat) (n : Node)
    (state final : WorkflowState) :
  run settings rt limit tick n state = Returned final ->
  limit <= limit' ->
  run settings rt limit' tick n state = Returned final.
Proof.
  revert limit' tick n state. induction limit as [|limit IH];
    intros limit' tick n state Hrun Hle.
  - destruct n; try done. by rewrite run_at_end.
  - destruct (decide (n = N_END)) as [-> | Hn].
    + rewrite run_at_end in *. done.
    + destruct limit' as [|limit']; [lia|].
      rewrite run_unfold in * by done.
      destruct (step settings rt tick n state) as [[n1 state1]|e]; [|done].
      apply IH; [done | lia].
Qed.

Lemma agent_node_frame rt (r : Role) (tick : nat) (state : WorkflowState) :
  query_type (agent_node rt r tick state) = query_type state.
Proof.
  destruct r; simpl; unfold research_node, code_node, decision_node;
    match goal with |- context [match ?x with _ => _ end] => destruct x end;
    reflexivity.
Qed.









(** ** Failing research and code agents *)

Lemma bouncing_step settings rt (tick : nat) (state : WorkflowState) :
  research_and_code_raise rt ->
  bouncing state ->
  (exists state' : WorkflowState,
     step settings rt tick N_code state = Returned (N_research, state') /\
     bouncing state') /\
  (exists state' : WorkflowState,
     step settings rt tick N_research state = Returned (N_code, state') /\
     bouncing state').
Proof.
  intros Hraise (Hq & Hv & Hc). split.
  - exists (code_node rt tick state).
    unfold step, after_code, code_node, bouncing.
    destruct (Hraise tick
                (mkAgentContext (query_id state) (original_query state)
                   (query_type state) None (metadata state))) as [_ [e ->]].
    simpl. by rewrite Hq, Hv, Hc.
  - exists (research_node rt tick state).
    unfold step, after_research, research_node, bouncing.
    destruct (Hraise tick
                (mkAgentContext (query_id state) (original_query state)
                   (query_type state) None (metadata state))) as [[e ->] _].
    simpl. by rewrite Hq, Hv, Hc.
Qed.

Lemma bouncing_run settings rt (limit tick : nat) (state : WorkflowState) (n : Node) :
  research_and_code_raise rt ->
  bouncing state ->
  n = N_code \/ n = N_research ->
  run settings rt limit tick n state =
  Raised (Exn "GraphRecursionError" (graph_recursion_message rt)).
Proof.
  intros Hraise. revert tick state n.
  induction limit as [|limit IH]; intros tick state n Hb Hn.
  - by destruct Hn as [-> | ->].
  - destruct (bouncing_step settings rt tick state Hraise Hb)
      as [(sc & Hsc & Hbc) (sr & Hsr & Hbr)].
    destruct Hn as [-> | ->]; rewrite run_unfold by done.
    + rewrite Hsc. apply IH; [exact Hbc | auto].
    + rewrite Hsr. apply IH; [exact Hbr | auto].
Qed.

Lemma bouncing_after_router settings rt (query_id query : string)
    (meta : option (gmap string MetaValue)) :
  let start := initial_state query_id query CODE meta in
  step settings rt 0 N_router start = Returned (N_code, route_query rt 0 start) /\
  bouncing (reduce (route_query rt 0 start)).
Proof.
  intros start.
  destruct (route_query_frame rt 0 start) as (Hq & _ & Hv & _ & Hc & _).
  split.
  - unfold step, determine_next_agent. by rewrite Hq.
  - change (bouncing (route_query rt 0 start)). unfold bouncing. by rewrite Hq, Hv, Hc.
Qed.

(** A CODE query whose research and code agents raise at every call never
    reaches the synthesizer: the code node and the research node hand the
    query to each other (neither marks itself as visited when it fails), so
    every state of the run is at the router, the code node or the research
    node with [agents_visited] empty, and the run lasts until the graph
    library stops it.  Whatever the recursion limit and the retry bound,
    [execute] then reports FAILED with the text of the library's recursion
    error and none of the errors the agents raised. *)
Theorem failing_agents_exhaust_limit settings rt (recursion_limit : nat)
    (query_id query : string) (meta : option (gmap string MetaValue)) :
  research_and_code_raise rt ->
  let start := initial_state query_id query CODE meta in
  (forall (n : Node) (tick : nat) (state : WorkflowState),
     reachable settings rt start n tick state ->
     (n = N_router \/ n = N_code \/ n = N_research) /\ agents_visited state = []) /\
  run settings rt recursion_limit 0 N_router start =
    Raised (Exn "GraphRecursionError" (graph_recursion_message rt)) /\
  execute settings rt recursion_limit query_id query CODE meta =
  mkExecutionResult query_id (Plain FAILED)
    (Plain ("Workflow execution failed: " +:+ graph_recursion_message rt))
    (Plain 0.0%float) (Plain []) (Plain ∅) (Plain [graph_recursion_message rt])
    (Plain {["error_type" := MetaOpaque "GraphRecursionError"]}).
Proof.
  intros Hraise start.
  destruct (bouncing_after_router settings rt query_id query meta) as [Hstep Hbounce].
  fold start in Hstep, Hbounce.
  assert (Hrun : run settings rt recursion_limit 0 N_router start =
                 Raised (Exn "GraphRecursionError" (graph_recursion_message rt))).
  { destruct recursion_limit as [|limit]; [done|].
    rewrite run_unfold, Hstep by done. apply bouncing_run; [done | done | by left]. }
  split; [|split; [done|]].
  - intros n tick state Hreach.
    assert (Hinv : (n = N_router /\ tick = 0 /\ state = start) \/
                   ((n = N_code \/ n = N_research) /\ bouncing state)).
    { induction Hreach as [|n tick state n' output _ IH Hn Hnext]; [by left|].
      right. destruct IH as [(-> & -> & ->) | [Hcr Hb]].
      - rewrite Hstep in Hnext. injection Hnext as <- <-. split; [by left | done].
      - destruct (bouncing_step settings rt tick state Hraise Hb)
          as [(sc & Hsc & Hbc) (sr & Hsr & Hbr)].
        destruct Hcr as [-> | ->].
        + rewrite Hsc in Hnext. injection Hnext as <- <-. split; [by right | exact Hbc].
        + rewrite Hsr in Hnext. injection Hnext as <- <-. split; [by left | exact Hbr]. }
    destruct Hinv as [(-> & -> & ->) | [[-> | ->] (_ & Hv & _)]]; split; auto.
  - pose proof (execute_result settings rt recursion_limit query_id query CODE meta)
      as Hresult.
    fold start in Hresult. by rewrite Hrun in Hresult.
Qed.

Lemma failing_runtime_raises : research_and_code_raise failing_runtime.
Proof. intros tick context. split; by eexists. Qed.

Lemma failing_agents_exhaust_limit_witness :
  let start := initial_state "q2" "sort a list" CODE None in
  (forall (n : Node) (tick : nat) (state : WorkflowState),
     reachable default_settings failing_runtime start n tick state ->
     (n = N_router \/ n = N_code \/ n = N_research) /\ agents_visited state = []) /\
  run default_settings failing_runtime 25 0 N_router start =
    Raised (Exn "GraphRecursionError" (graph_recursion_message failing_runtime)) /\
  execute default_settings failing_runtime 25 "q2" "sort a list" CODE None =
  mkExecutionResult "q2" (Plain FAILED)
    (Plain ("Workflow execution failed: " +:+ graph_recursion_message failing_runtime))
    (Plain 0.0%float) (Plain []) (Plain ∅) (Plain [graph_recursion_message failing_runtime])
    (Plain {["error_type" := MetaOpaque "GraphRecursionError"]}).
Proof.
  apply (failing_agents_exhaust_limit default_settings failing_runtime 25 "q2"
           "sort a list" None failing_runtime_raises).
Defined.

(** * Further properties of the communication protocol *)

Section ProtocolMore.
Context {Agent : Type}.
Implicit Types (self : Protocol.AgentCommunicationProtocol Agent).

(** What [send_message] does to each queue. *)
Lemma send_message_queue self now from_agent to_agent message_type text (name : string) :
  Protocol.message_queue
    (Protocol.send_message now from_agent to_agent message_type text self) !! name =
  if decide (name = to_agent)
  then (fun queue => queue ++ [Protocol.mkMessage from_agent to_agent message_type text now])
         <$> Protocol.message_queue self !! name
  else Protocol.message_queue self !! name.
Proof.
  unfold Protocol.send_message.
  destruct (decide (name = to_agent)) as [-> | Hne].
  - destruct (Protocol.message_queue self !! to_agent) as [queue|] eqn:Hq; simpl.
    + by rewrite lookup_insert_eq.
    + by rewrite Hq.
  - destruct (Protocol.message_queue self !! to_agent) as [queue|]; simpl; [|done].
    by rewrite lookup_insert_ne.
Qed.

Lemma send_message_registry self now from_agent to_agent message_type text :
  Protocol.agent_registry
    (Protocol.send_message now from_agent to_agent message_type text self) =
  Protocol.agent_registry self.
Proof.
  unfold Protocol.send_message. by destruct (Protocol.message_queue self !! to_agent).
Qed.

(** A message for a name that has no queue is dropped, and draining such a
    name returns nothing: in both cases the protocol is left as it was.  In
    a consistent protocol the names without a queue are the unregistered
    ones. *)
Theorem unregistered_name_is_ignored self (agent_name : string) :
  Protocol.message_queue self !! agent_name = None ->
  (forall now from_agent message_type text,
     Protocol.send_message now from_agent agent_name message_type text self = self) /\
  Protocol.receive_messages agent_name self = ([], self) /\
  (Protocol.consistent self -> agent_name ∉ Dict.keys (Protocol.agent_registry self)).
Proof.
  intros Hnone. split; [|split].
  - intros. unfold Protocol.send_message. by rewrite Hnone.
  - unfold Protocol.receive_messages. by rewrite Hnone.
  - intros [_ Hdom] Hin. apply Hdom in Hin. rewrite Hnone in Hin. by destruct Hin.
Qed.

Lemma send_all_queue self (to_agent : string) batch (queue : list Protocol.Message) :
  Protocol.message_queue self !! to_agent = Some queue ->
  Protocol.message_queue (Protocol.send_all to_agent batch self) !! to_agent =
  Some (queue ++ Protocol.batch_messages to_agent batch).
Proof.
  revert self queue. induction batch as [|[[[now from_agent] message_type] text] batch IH];
    intros self queue Hq; simpl.
  - by rewrite app_nil_r.
  - rewrite (IH _ (queue ++ [Protocol.mkMessage from_agent to_agent message_type text now])).
    + by rewrite <- app_assoc.
    + by rewrite send_message_queue, decide_True, Hq.
Qed.

(** Queues are first in, first out, and a drain takes everything: the
    messages sent to a registered name since the last drain come back in
    the order they were sent, after those that were already waiting; the
    queue is empty right after, so a second drain returns nothing; the
    registry and the other queues are untouched by the drain. *)
Theorem receive_messages_fifo self (agent_name : string) batch
    (waiting : list Protocol.Message) :
  Protocol.message_queue self !! agent_name = Some waiting ->
  let sent := Protocol.send_all agent_name batch self in
  let drained := Protocol.receive_messages agent_name sent in
  drained.1 = waiting ++ Protocol.batch_messages agent_name batch /\
  Protocol.message_queue drained.2 !! agent_name = Some [] /\
  (Protocol.receive_messages agent_name drained.2).1 = [] /\
  Protocol.agent_registry drained.2 = Protocol.agent_registry sent /\
  (forall other : string,
     other <> agent_name ->
     Protocol.message_queue drained.2 !! other = Protocol.message_queue sent !! other).
Proof.
  intros Hq sent drained.
  pose proof (send_all_queue self agent_name batch waiting Hq) as Hsent.
  fold sent in Hsent. unfold drained, Protocol.receive_messages. rewrite Hsent. simpl.
  rewrite lookup_insert_eq. simpl. repeat split; try done.
  intros other Hne. by rewrite lookup_insert_ne.
Qed.

End ProtocolMore.

Lemma unregistered_name_is_ignored_witness :
  (forall now from_agent message_type text,
     Protocol.send_message now from_agent "code" message_type text
       (Protocol.register_agent "research" tt Protocol.init)
     = Protocol.register_agent "research" tt Protocol.init) /\
  Protocol.receive_messages "code" (Protocol.register_agent "research" tt Protocol.init)
    = ([], Protocol.register_agent "research" tt Protocol.init) /\
  (Protocol.consistent (Protocol.register_agent "research" tt Protocol.init) ->
   "code" ∉ Dict.keys
     (Protocol.agent_registry (Protocol.register_agent "research" tt Protocol.init))).
Proof.
  apply (unregistered_name_is_ignored
           (Protocol.register_agent "research" tt Protocol.init) "code").
  reflexivity.
Defined.

Lemma receive_messages_fifo_witness :
  let self := Protocol.register_agent "research" tt Protocol.init in
  let batch := [("t1", "code", "note", "first"); ("t2", "decision", "note", "second")] in
  let sent := Protocol.send_all "research" batch self in
  let drained := Protocol.receive_messages "research" sent in
  drained.1 = [] ++ Protocol.batch_messages "research" batch /\
  Protocol.message_queue drained.2 !! "research" = Some [] /\
  (Protocol.receive_messages "research" drained.2).1 = [] /\
  Protocol.agent_registry drained.2 = Protocol.agent_registry sent /\
  (forall other : string,
     other <> "research" ->
     Protocol.message_queue drained.2 !! other = Protocol.message_queue sent !! other).
Proof.
  apply (receive_messages_fifo (Protocol.register_agent "research" tt Protocol.init)
           "research"
           [("t1", "code", "note", "first"); ("t2", "decision", "note", "second")] []).
  reflexivity.
Defined.

Section ProtocolInvariants.
Context {Agent : Type}.
Implicit Types (self : Protocol.AgentCommunicationProtocol Agent).

Lemma consistent_send self now from_agent to_agent message_type text :
  Protocol.consistent self ->
  Protocol.consistent (Protocol.send_message now from_agent to_agent message_type text self).
Proof.
  intros [Hnd Hdom]. split; rewrite send_message_registry; [done|].
  intros name. rewrite send_message_queue, <- Hdom.
  destruct (decide (name = to_agent)); [apply fmap_is_Some | done].
Qed.

Lemma consistent_broadcast self (now : string -> string) from_agent message_type text :
  Protocol.consistent self ->
  Protocol.consistent (Protocol.broadcast_message now from_agent message_type text self).
Proof.
  unfold Protocol.broadcast_message.
  generalize (Dict.keys (Protocol.agent_registry self)). intros names. revert self.
  induction names as [|name names IH]; intros self Hc; simpl; [done|].
  apply IH. destruct (decide (name <> from_agent)); [by apply consistent_send | done].
Qed.

(** The registry and the queues stay in step.  A new protocol is
    consistent: no name is registered twice and the names that have a queue
    are the registered names; and registering (a new name or a known one),
    sending, draining and broadcasting keep it so. *)
Theorem protocol_stays_consistent self :
  Protocol.consistent self ->
  Protocol.consistent (Protocol.init (Agent := Agent)) /\
  (forall agent_name (agent_instance : Agent),
     Protocol.consistent (Protocol.register_agent agent_name agent_instance self)) /\
  (forall now from_agent to_agent message_type text,
     Protocol.consistent
       (Protocol.send_message now from_agent to_agent message_type text self)) /\
  (forall agent_name,
     Protocol.consistent (Protocol.receive_messages agent_name self).2) /\
  (forall (now : string -> string) from_agent message_type text,
     Protocol.consistent
       (Protocol.broadcast_message now from_agent message_type text self)).
Proof.
  intros Hc. split; [|split; [|split; [|split]]].
  - split; [apply NoDup_nil_2|]. intros name. simpl. rewrite lookup_empty, elem_of_nil.
    split; [by intros [? ?] | done].
  - intros agent_name agent_instance. destruct Hc as [Hnd Hdom]. split; simpl.
    + by apply dict_keys_set_nodup.
    + intros name. rewrite dict_keys_set, <- Hdom.
      destruct (decide (name = agent_name)) as [-> | Hne].
      * rewrite lookup_insert_eq. split; [by left | by eexists].
      * rewrite lookup_insert_ne by done. split; [by right | by intros [?|?]].
  - intros. by apply consistent_send.
  - intros agent_name. destruct Hc as [Hnd Hdom]. unfold Protocol.receive_messages.
    destruct (Protocol.message_queue self !! agent_name) as [queue|] eqn:Hq; simpl; [|done].
    split; [done|]. intros name. simpl. rewrite <- Hdom.
    destruct (decide (name = agent_name)) as [-> | Hne].
    + rewrite lookup_insert_eq, Hq. split; by eexists.
    + by rewrite lookup_insert_ne.
  - intros. by apply consistent_broadcast.
Qed.

Lemma broadcast_fold self (now : string -> string) from_agent message_type text
    (names : list string) (name : string) :
  NoDup names ->
  let self' :=
    fold_left
      (fun p agent_name =>
         if decide (agent_name <> from_agent)
         then Protocol.send_message (now agent_name) from_agent agent_name message_type text p
         else p)
      names self in
  Protocol.agent_registry self' = Protocol.agent_registry self /\
  Protocol.message_queue self' !! name =
  if bool_decide (name ∈ names) && negb (bool_decide (name = from_agent))
  then (fun queue =>
          queue ++ [Protocol.mkMessage from_agent name message_type text (now name)])
         <$> Protocol.message_queue self !! name
  else Protocol.message_queue self !! name.
Proof.
  revert self. induction names as [|a names IH]; intros self Hnd; simpl; [done|].
  apply NoDup_cons in Hnd as [Ha Hnd].
  destruct (IH (if decide (a <> from_agent)
                then Protocol.send_message (now a) from_agent a message_type text self
                else self) Hnd) as [Hreg Hqueue].
  split.
  - rewrite Hreg. destruct (decide (a <> from_agent)); [apply send_message_registry | done].
  - rewrite Hqueue. clear Hreg Hqueue IH.
    destruct (decide (name = a)) as [-> | Hne].
    + rewrite (bool_decide_false (a ∈ names)) by done.
      rewrite (bool_decide_true (a ∈ a :: names)) by (apply elem_of_cons; by left).
      simpl. destruct (decide (a <> from_agent)) as [Hfrom | Hfrom].
      * rewrite send_message_queue, decide_True by done.
        by rewrite (bool_decide_false (a = from_agent)).
      * rewrite (bool_decide_true (a = from_agent)); [done|].
        by destruct (decide (a = from_agent)).
    + assert (Hsame : bool_decide (name ∈ a :: names) = bool_decide (name ∈ names)).
      { apply bool_decide_ext. rewrite elem_of_cons. tauto. }
      rewrite Hsame.
      assert (Hq : Protocol.message_queue
                     (if decide (a <> from_agent)
                      then Protocol.send_message (now a) from_agent a message_type text self
                      else self) !! name = Protocol.message_queue self !! name).
      { destruct (decide (a <> from_agent)); [|done].
        by rewrite send_message_queue, decide_False. }
      by rewrite Hq.
Qed.

(** A broadcast from a role reaches the queue of every other registered
    role exactly once (one message is appended, addressed to that role) and
    leaves the sender's own queue, the registry and every unregistered name
    as they were. *)
Theorem broadcast_reaches_others self (now : string -> string)
    (from_agent message_type text : string) :
  Protocol.consistent self ->
  let self' := Protocol.broadcast_message now from_agent message_type text self in
  Protocol.agent_registry self' = Protocol.agent_registry self /\
  (forall name : string,
     name ∈ Dict.keys (Protocol.agent_registry self) ->
     name <> from_agent ->
     exists queue : list Protocol.Message,
       Protocol.message_queue self !! name = Some queue /\
       Protocol.message_queue self' !! name =
       Some (queue ++ [Protocol.mkMessage from_agent name message_type text (now name)])) /\
  Protocol.message_queue self' !! from_agent = Protocol.message_queue self !! from_agent /\
  (forall name : string,
     name ∉ Dict.keys (Protocol.agent_registry self) ->
     Protocol.message_queue self' !! name = None).
Proof.
  intros [Hnd Hdom] self'.
  assert (Hfold : forall name,
    Protocol.agent_registry self' = Protocol.agent_registry self /\
    Protocol.message_queue self' !! name =
    if bool_decide (name ∈ Dict.keys (Protocol.agent_registry self)) &&
       negb (bool_decide (name = from_agent))
    then (fun queue =>
            queue ++ [Protocol.mkMessage from_agent name message_type text (now name)])
           <$> Protocol.message_queue self !! name
    else Protocol.message_queue self !! name).
  { intros name. by apply broadcast_fold. }
  split; [apply (Hfold "")|]. split; [|split].
  - intros name Hin Hne. destruct (proj2 (Hdom name) Hin) as [queue Hq].
    exists queue. split; [done|]. destruct (Hfold name) as [_ ->].
    by rewrite bool_decide_true, bool_decide_false, Hq.
  - destruct (Hfold from_agent) as [_ ->].
    by rewrite (bool_decide_true (from_agent = from_agent)), andb_false_r.
  - intros name Hnot. destruct (Hfold name) as [_ ->].
    rewrite bool_decide_false by done. simpl.
    destruct (Protocol.message_queue self !! name) eqn:Hq; [|done].
    exfalso. apply Hnot, Hdom. by eexists.
Qed.

End ProtocolInvariants.

Lemma two_agents_consistent :
  Protocol.consistent
    (Protocol.register_agent "code" tt (Protocol.register_agent "research" tt Protocol.init)).
Proof.
  split.
  - simpl. apply NoDup_cons. split; [|apply NoDup_singleton].
    by intros [=]%list_elem_of_singleton.
  - intros name. simpl. rewrite !elem_of_cons, elem_of_nil.
    destruct (decide (name = "code")) as [-> | Hc].
    + rewrite lookup_insert_eq. split; [tauto | by eexists].
    + rewrite lookup_insert_ne by done.
      destruct (decide (name = "research")) as [-> | Hr].
      * rewrite lookup_insert_eq. split; [tauto | by eexists].
      * rewrite lookup_insert_ne, lookup_empty by done.
        split; [by intros [? ?] | tauto].
Qed.

Lemma protocol_stays_consistent_witness :
  let self :=
    Protocol.register_agent "code" tt (Protocol.register_agent "research" tt Protocol.init) in
  Protocol.consistent (Protocol.init (Agent := unit)) /\
  (forall agent_name (agent_instance : unit),
     Protocol.consistent (Protocol.register_agent agent_name agent_instance self)) /\
  (forall now from_agent to_agent message_type text,
     Protocol.consistent
       (Protocol.send_message now from_agent to_agent message_type text self)) /\
  (forall agent_name,
     Protocol.consistent (Protocol.receive_messages agent_name self).2) /\
  (forall (now : string -> string) from_agent message_type text,
     Protocol.consistent
       (Protocol.broadcast_message now from_agent message_type text self)).
Proof.
  apply (protocol_stays_consistent
           (Protocol.register_agent "code" tt
              (Protocol.register_agent "research" tt Protocol.init))).
  exact two_agents_consistent.
Defined.

Lemma broadcast_reaches_others_witness :
  let self :=
    Protocol.register_agent "code" tt (Protocol.register_agent "research" tt Protocol.init) in
  let self' := Protocol.broadcast_message (fun _ => "t0") "research" "note" "hello" self in
  Protocol.agent_registry self' = Protocol.agent_registry self /\
  (forall name : string,
     name ∈ Dict.keys (Protocol.agent_registry self) ->
     name <> "research" ->
     exists queue : list Protocol.Message,
       Protocol.message_queue self !! name = Some queue /\
       Protocol.message_queue self' !! name =
       Some (queue ++ [Protocol.mkMessage "research" name "note" "hello" "t0"])) /\
  Protocol.message_queue self' !! "research" = Protocol.message_queue self !! "research" /\
  (forall name : string,
     name ∉ Dict.keys (Protocol.agent_registry self) ->
     Protocol.message_queue self' !! name = None).
Proof.
  apply (broadcast_reaches_others
           (Protocol.register_agent "code" tt
              (Protocol.register_agent "research" tt Protocol.init))
           (fun _ => "t0") "research" "note" "hello").
  exact two_agents_consistent.
Defined.

(** ** Status introspection *)

Section ProtocolStatus.
Context {Agent : Type}.
Variable get_status : Agent -> option Protocol.Status.
Implicit Types (self : Protocol.AgentCommunicationProtocol Agent).

Lemma dict_get_none {V : Type} (d : Dict.t V) (k : string) :
  k ∉ Dict.keys d -> Dict.get k d = None.
Proof.
  unfold Dict.keys. induction d as [|[k0 v0] d IH]; simpl; [done|].
  rewrite elem_of_cons. intros Hnot.
  destruct (decide (k0 = k)) as [-> | Hne]; [tauto|]. apply IH. tauto.
Qed.

Lemma dict_set_fresh {V : Type} (d : Dict.t V) (k : string) (v : V) :
  k ∉ Dict.keys d -> Dict.set k v d = d ++ [(k, v)].
Proof.
  unfold Dict.keys. induction d as [|[k0 v0] d IH]; simpl; [done|].
  rewrite elem_of_cons. intros Hnot.
  destruct (decide (k0 = k)) as [-> | Hne]; [tauto|]. rewrite IH; [done | tauto].
Qed.

Lemma status_fold (status_of : string -> Protocol.Status) (names : list string)
    (statuses : Dict.t Protocol.Status) :
  NoDup (Dict.keys statuses ++ names) ->
  fold_left (fun acc name => Dict.set name (status_of name) acc) names statuses =
  statuses ++ ((fun name => (name, status_of name)) <$> names).
Proof.
  revert statuses. induction names as [|a names IH]; intros statuses Hnd; simpl.
  - by rewrite app_nil_r.
  - apply NoDup_app in Hnd as (Hs & Hdisj & Hnames).
    apply NoDup_cons in Hnames as [Ha Hnames].
    assert (Hfresh : a ∉ Dict.keys statuses).
    { intros Hin. apply (Hdisj a Hin), elem_of_cons. by left. }
    rewrite dict_set_fresh by done. rewrite IH.
    + by rewrite <- app_assoc.
    + unfold Dict.keys in *. rewrite fmap_app. simpl. rewrite <- app_assoc. simpl.
      apply NoDup_app. split; [done|]. split; [|by apply NoDup_cons].
      intros x Hx. by apply Hdisj.
Qed.

(** [get_all_agents_status] lists exactly the registered names, in the order
    of their registration, each with what [get_agent_status] returns for it:
    the agent's own status record when the agent has a [get_status], the
    record [{"status": "unknown", "agent": name}] when it has not.  An
    unregistered name gets the unknown record too. *)
Theorem agents_status_listing self :
  NoDup (Dict.keys (Protocol.agent_registry self)) ->
  Protocol.get_all_agents_status get_status self =
    (fun name => (name, Protocol.get_agent_status get_status name self))
      <$> Dict.keys (Protocol.agent_registry self) /\
  Dict.keys (Protocol.get_all_agents_status get_status self) =
    Dict.keys (Protocol.agent_registry self) /\
  (forall (name : string) (agent : Agent),
     Dict.get name (Protocol.agent_registry self) = Some agent ->
     Protocol.get_agent_status get_status name self =
     default (Protocol.unknown_status name) (get_status agent)) /\
  (forall name : string,
     name ∉ Dict.keys (Protocol.agent_registry self) ->
     Protocol.get_agent_status get_status name self = Protocol.unknown_status name).
Proof.
  intros Hnd.
  assert (Hall : Protocol.get_all_agents_status get_status self =
    (fun name => (name, Protocol.get_agent_status get_status name self))
      <$> Dict.keys (Protocol.agent_registry self)).
  { unfold Protocol.get_all_agents_status. by rewrite status_fold. }
  split; [done|]. split; [|split].
  - rewrite Hall. unfold Dict.keys. rewrite <- list_fmap_compose.
    rewrite <- (list_fmap_id ((Protocol.agent_registry self).*1)) at 2.
    by apply list_fmap_ext.
  - intros name agent Hget. unfold Protocol.get_agent_status. rewrite Hget.
    by destruct (get_status agent).
  - intros name Hnot. unfold Protocol.get_agent_status. by rewrite dict_get_none.
Qed.

End ProtocolStatus.

Lemma agents_status_listing_witness :
  let self :=
    Protocol.register_agent "code" false
      (Protocol.register_agent "research" true Protocol.init) in
  let get_status (has : bool) :=
    if has then Some [("status", "active")] else None in
  Protocol.get_all_agents_status get_status self =
    (fun name => (name, Protocol.get_agent_status get_status name self))
      <$> Dict.keys (Protocol.agent_registry self) /\
  Dict.keys (Protocol.get_all_agents_status get_status self) =
    Dict.keys (Protocol.agent_registry self) /\
  (forall (name : string) (agent : bool),
     Dict.get name (Protocol.agent_registry self) = Some agent ->
     Protocol.get_agent_status get_status name self =
     default (Protocol.unknown_status name) (get_status agent)) /\
  (forall name : string,
     name ∉ Dict.keys (Protocol.agent_registry self) ->
     Protocol.get_agent_status get_status name self = Protocol.unknown_status name).
Proof.
  apply (agents_status_listing
           (fun has : bool => if has then Some [("status", "active")] else None)
           (Protocol.register_agent "code" false
              (Protocol.register_agent "research" true Protocol.init))).
  simpl. apply NoDup_cons. split; [|apply NoDup_singleton].
  intros H%list_elem_of_singleton. discriminate H.
Defined.

(** * The decision agent's routing *)

Lemma router_step settings rt (tick : nat) (state : WorkflowState) :
  step settings rt tick N_router state =
  Returned (match query_type state with
            | CODE => N_code
            | DECISION => N_decision
            | RESEARCH | GENERAL => N_research
            end, route_query rt tick state).
Proof.
  destruct (route_query_frame rt tick state) as (Hq & _).
  unfold step, determine_next_agent. rewrite Hq. by destruct (query_type state).
Qed.

Lemma route_query_records rt (tick : nat) (state : WorkflowState) :
  let answer := decision_agent_route_query rt tick (original_query state) (query_type state) in
  priority (route_query rt tick state) = answer.2 /\
  next_agent (route_query rt tick state) =
    Some (match answer.1 with
          | a :: _ => Str.lower (AgentType_value a)
          | [] => "research"
          end).
Proof.
  unfold route_query. by destruct (decision_agent_route_query _ _ _ _).
Qed.

Section DecisionRouting.
Variable llm : string -> outcome string.
Variable fallback_classification : string -> string.
Variable select_dynamically : string -> outcome (list AgentType).
Variable str_upper : string -> string.

(** [route_query] answers with the routing rule of the query type, whatever
    the language model says and even when it fails: RESEARCH gives the
    research agent, CODE the code agent, DECISION the research and the code
    agent, and GENERAL the empty list.  Every query type has a rule, so the
    dynamic selection is never consulted; the priority is the one read off
    the assessment. *)
Theorem route_query_follows_rules (query : string) (query_type : QueryType) :
  let answer :=
    DecisionAgent.route_query llm fallback_classification select_dynamically str_upper
      query query_type in
  answer.1 =
    match query_type with
    | RESEARCH => [AGENT_RESEARCH]
    | CODE => [AGENT_CODE]
    | DECISION => [AGENT_RESEARCH; AGENT_CODE]
    | GENERAL => []
    end /\
  answer.2 =
    DecisionAgent.priority_of str_upper (DecisionAgent._assess_priority llm query) /\
  (forall (llm' : string -> outcome string) (other : string -> outcome (list AgentType))
          (fallback' : string -> string) (upper' : string -> string),
     (DecisionAgent.route_query llm' fallback' other upper' query query_type).1 =
     answer.1) /\
  (forall other : string -> outcome (list AgentType),
     DecisionAgent.route_query llm fallback_classification other str_upper
       query query_type = answer).
Proof. by destruct query_type. Qed.

(** The priority is decided by the first of the words CRITICAL, HIGH and
    LOW, in this order, that occurs in [priority_assessment.upper()], and is
    MEDIUM when none occurs; the word MEDIUM itself is never looked for.
    [str.upper] turns the letters a to z of an ASCII text into A to Z and
    leaves its other characters alone; hence an ASCII assessment that
    contains LOW inside another word, in any case, is LOW, and when the
    language model fails the priority is MEDIUM. *)
Theorem priority_by_first_keyword (priority_assessment : string) :
  (forall s : string, DecisionAgent.is_ascii s = true -> str_upper s = DecisionAgent.upper s) ->
  let text := str_upper priority_assessment in
  let has word := substring_of word text in
  let priority := DecisionAgent.priority_of str_upper priority_assessment in
  (priority = CRITICAL <-> has "CRITICAL") /\
  (priority = HIGH <-> ~ has "CRITICAL" /\ has "HIGH") /\
  (priority = LOW <-> ~ has "CRITICAL" /\ ~ has "HIGH" /\ has "LOW") /\
  (priority = MEDIUM <-> ~ has "CRITICAL" /\ ~ has "HIGH" /\ ~ has "LOW") /\
  (DecisionAgent.is_ascii priority_assessment = true ->
   text = DecisionAgent.upper priority_assessment) /\
  DecisionAgent.priority_of str_upper "Priority: medium, the user can follow up later"
    = LOW /\
  (forall (query : string) (e : exn),
     llm (DecisionAgent.priority_prompt query) = Raised e ->
     forall query_type,
       (DecisionAgent.route_query llm fallback_classification select_dynamically
          str_upper query query_type).2 = MEDIUM).
Proof.
  intros Hupper text has priority.
  unfold priority, has, DecisionAgent.priority_of. fold text.
  rewrite <- !contains_spec.
  split; [|split; [|split; [|split; [|split; [|split]]]]].
  - destruct (Str.contains "CRITICAL" text), (Str.contains "HIGH" text),
      (Str.contains "LOW" text); split; done.
  - destruct (Str.contains "CRITICAL" text), (Str.contains "HIGH" text),
      (Str.contains "LOW" text); split; try done; by intros [? ?].
  - destruct (Str.contains "CRITICAL" text), (Str.contains "HIGH" text),
      (Str.contains "LOW" text); split; try done; by intros (? & ? & ?).
  - destruct (Str.contains "CRITICAL" text), (Str.contains "HIGH" text),
      (Str.contains "LOW" text); split; try done; by intros (? & ? & ?).
  - apply Hupper.
  - rewrite Hupper by (by vm_compute). by vm_compute.
  - intros query e Hllm query_type.
    assert (Hmedium : DecisionAgent.priority_of str_upper "MEDIUM" = MEDIUM).
    { unfold DecisionAgent.priority_of. rewrite Hupper by (by vm_compute). by vm_compute. }
    unfold DecisionAgent.route_query, DecisionAgent._assess_priority. rewrite Hllm, Hmedium.
    by destruct query_type.
Qed.

(** With this decision agent behind the router, the [next_agent] the router
    records is ["code"] for a CODE query and ["research"] for every other
    type: for GENERAL because the rule is empty and the default applies, for
    DECISION because the rule lists the research agent first.  The node the
    graph runs next is chosen from the query type, so for a DECISION query
    the decision node runs while [next_agent] says ["research"]. *)
Theorem recorded_next_agent settings rt (models : nat -> string -> outcome string)
    (tick : nat) (state : WorkflowState) :
  let rt' :=
    DecisionAgent.with_decision_agent models fallback_classification
      select_dynamically str_upper rt in
  let state' := route_query rt' tick state in
  next_agent state' =
    Some (match query_type state with CODE => "code" | _ => "research" end) /\
  step settings rt' tick N_router state =
    Returned (match query_type state with
              | CODE => N_code
              | DECISION => N_decision
              | RESEARCH | GENERAL => N_research
              end, state') /\
  priority state' =
    DecisionAgent.priority_of str_upper
      (DecisionAgent._assess_priority (models tick) (original_query state)).
Proof.
  intros rt' state'.
  destruct (route_query_records rt' tick state) as [Hpriority Hnext].
  fold state' in Hpriority, Hnext.
  assert (Hanswer :
    decision_agent_route_query rt' tick (original_query state) (query_type state) =
    (match query_type state with
     | RESEARCH => [AGENT_RESEARCH]
     | CODE => [AGENT_CODE]
     | DECISION => [AGENT_RESEARCH; AGENT_CODE]
     | GENERAL => []
     end,
     DecisionAgent.priority_of str_upper
       (DecisionAgent._assess_priority (models tick) (original_query state)))).
  { unfold rt'. simpl. by destruct (query_type state). }
  rewrite Hanswer in Hpriority, Hnext. simpl in Hpriority, Hnext.
  split; [|split; [apply router_step | done]].
  rewrite Hnext. by destruct (query_type state).
Qed.

End DecisionRouting.

Lemma priority_by_first_keyword_witness :
  let llm : string -> outcome string :=
    fun _ => Raised (Exn "ConnectionError" "model unreachable") in
  let text := DecisionAgent.upper "Priority: high (deadline today)" in
  let has word := substring_of word text in
  let priority :=
    DecisionAgent.priority_of DecisionAgent.upper "Priority: high (deadline today)" in
  (priority = CRITICAL <-> has "CRITICAL") /\
  (priority = HIGH <-> ~ has "CRITICAL" /\ has "HIGH") /\
  (priority = LOW <-> ~ has "CRITICAL" /\ ~ has "HIGH" /\ has "LOW") /\
  (priority = MEDIUM <-> ~ has "CRITICAL" /\ ~ has "HIGH" /\ ~ has "LOW") /\
  (DecisionAgent.is_ascii "Priority: high (deadline today)" = true ->
   text = DecisionAgent.upper "Priority: high (deadline today)") /\
  DecisionAgent.priority_of DecisionAgent.upper
    "Priority: medium, the user can follow up later" = LOW /\
  (forall (query : string) (e : exn),
     llm (DecisionAgent.priority_prompt query) = Raised e ->
     forall query_type,
       (DecisionAgent.route_query llm (fun _ => "{}") (fun _ => Returned [])
          DecisionAgent.upper query query_type).2 = MEDIUM).
Proof.
  apply (priority_by_first_keyword
           (fun _ => Raised (Exn "ConnectionError" "model unreachable"))
           (fun _ => "{}") (fun _ => Returned []) DecisionAgent.upper
           "Priority: high (deadline today)").
  reflexivity.
Defined.

(** * The confidence scores of the research and code agents *)

Lemma checked_up_to_spec (P : nat -> bool) (k : nat) :
  AgentConfidence.checked_up_to P k = true -> forall n : nat, n <= k -> P n = true.
Proof.
  induction k as [|k IH]; simpl.
  - intros H0 n Hn. by replace n with 0 by lia.
  - intros [HS Hk]%andb_true_iff n Hn.
    destruct (decide (n = S k)) as [-> | Hne]; [done|]. apply IH; [done | lia].
Qed.

Lemma saturates_spec (unit : float) (least n : nat) :
  AgentConfidence.checked_up_to (AgentConfidence.saturates unit least)
    AgentConfidence.checked_length = true ->
  least <= n <= AgentConfidence.checked_length ->
  AgentConfidence.fmin 0.3 (AgentConfidence.float_of_nat n * unit) = 0.3%float.
Proof.
  intros Hall [Hleast Hn]. pose proof (checked_up_to_spec _ _ Hall n Hn) as Hsat.
  unfold AgentConfidence.saturates in Hsat.
  apply orb_true_iff in Hsat as [Hlt | Hge].
  - apply Nat.ltb_lt in Hlt. lia.
  - unfold AgentConfidence.fmin. apply negb_true_iff in Hge. by rewrite Hge.
Qed.

Lemma research_saturates :
  AgentConfidence.checked_up_to (AgentConfidence.saturates 0.1 3)
    AgentConfidence.checked_length = true.
Proof. by vm_compute. Qed.

Lemma code_saturates :
  AgentConfidence.checked_up_to (AgentConfidence.saturates 0.15 2)
    AgentConfidence.checked_length = true.
Proof. by vm_compute. Qed.

(** The research agent's confidence takes six values.  Without a long
    output it is 0.5, 0.6, 0.7 or 0.8 for 0, 1, 2 and 3 or more
    intermediate steps; an output of more than 500 characters adds 0.2,
    giving 0.7, 0.8, 0.8999999999999999 and 1.0.  It is therefore never
    below 0.5 nor above 1.0.  (Checked for up to 4096 steps.) *)
Theorem research_confidence_values {Step : Type} (steps : list Step) (output : string) :
  length steps <= AgentConfidence.checked_length ->
  let score := AgentConfidence.research_confidence steps output in
  score =
    AgentConfidence.research_table (length steps)
      (bool_decide (500 < String.length output)) /\
  PrimFloat.leb 0.5 score = true /\
  PrimFloat.leb score 1.0 = true.
Proof.
  intros Hlen score.
  assert (Hscore : score =
    AgentConfidence.research_table (length steps)
      (bool_decide (500 < String.length output))).
  { unfold score, AgentConfidence.research_confidence.
    destruct steps as [|s1 [|s2 [|s3 rest]]];
      try (destruct (bool_decide (500 < String.length output)); by vm_compute).
    rewrite (saturates_spec 0.1 3 _ research_saturates)
      by (split; [cbn [length]; lia | done]).
    destruct (bool_decide (500 < String.length output)); by vm_compute. }
  split; [done|]. rewrite Hscore.
  destruct (length steps) as [|[|[|n]]], (bool_decide (500 < String.length output));
    by vm_compute.
Qed.

Lemma research_confidence_values_witness :
  let score := AgentConfidence.research_confidence [tt; tt] "short" in
  score = AgentConfidence.research_table 2 (bool_decide (500 < String.length "short")) /\
  PrimFloat.leb 0.5 score = true /\
  PrimFloat.leb score 1.0 = true.
Proof.
  apply (research_confidence_values [tt; tt] "short").
  vm_compute. lia.
Defined.

Lemma code_confidence_table (code_blocks : list string) (output : string) :
  length code_blocks <= AgentConfidence.checked_length ->
  AgentConfidence.code_confidence code_blocks output =
  AgentConfidence.code_table (length code_blocks)
    (bool_decide (500 < String.length output)).
Proof.
  intros Hlen. unfold AgentConfidence.code_confidence.
  destruct code_blocks as [|s1 [|s2 rest]];
    try (destruct (bool_decide (500 < String.length output)); by vm_compute).
  rewrite (saturates_spec 0.15 2 _ code_saturates)
    by (split; [cbn [length]; lia | done]).
  destruct (bool_decide (500 < String.length output)); by vm_compute.
Qed.

Lemma code_confidence_low (code_blocks : list string) (output : string) :
  length code_blocks <= AgentConfidence.checked_length ->
  PrimFloat.ltb (AgentConfidence.code_confidence code_blocks output) 0.7 = true <->
  length code_blocks < 2 /\ String.length output <= 500.
Proof.
  intros Hlen. rewrite code_confidence_table by done. clear Hlen.
  destruct (length code_blocks) as [|[|n]]; case_bool_decide;
    (split;
     [ intros Hlow; first [by vm_compute in Hlow | lia]
     | intros [Hblocks Houtput]; first [lia | by vm_compute] ]).
Qed.

(** The code agent's confidence: 0.5, 0.65 or 0.8 for 0, 1 and 2 or more
    code blocks, and 0.7, 0.8500000000000001 or 1.0 when the output has more
    than 500 characters; never below 0.5 nor above 1.0.  It is below the 0.7
    that [after_code] asks for exactly when there are fewer than two code
    blocks and the output has at most 500 characters.  (Checked for up to
    4096 code blocks.) *)
Theorem code_confidence_values (code_blocks : list string) (output : string) :
  length code_blocks <= AgentConfidence.checked_length ->
  let score := AgentConfidence.code_confidence code_blocks output in
  score =
    AgentConfidence.code_table (length code_blocks)
      (bool_decide (500 < String.length output)) /\
  PrimFloat.leb 0.5 score = true /\
  PrimFloat.leb score 1.0 = true /\
  (PrimFloat.ltb score 0.7 = true <->
   length code_blocks < 2 /\ String.length output <= 500).
Proof.
  intros Hlen score. unfold score.
  split; [by apply code_confidence_table|].
  split; [|split; [|by apply code_confidence_low]];
    rewrite code_confidence_table by done;
    destruct (length code_blocks) as [|[|n]], (bool_decide (500 < String.length output));
    by vm_compute.
Qed.

Lemma code_confidence_values_witness :
  let score := AgentConfidence.code_confidence ["print(1)"] "short" in
  score = AgentConfidence.code_table 1 (bool_decide (500 < String.length "short")) /\
  PrimFloat.leb 0.5 score = true /\
  PrimFloat.leb score 1.0 = true /\
  (PrimFloat.ltb score 0.7 = true <-> 1 < 2 /\ String.length "short" <= 500).
Proof.
  apply (code_confidence_values ["print(1)"] "short").
  vm_compute. lia.
Defined.

(** A code agent that returns, with the confidence [CodeAgent] computes, is
    followed by the research agent exactly when it is unsure: for a query
    that is not of type DECISION and a research agent not yet visited, the
    run goes from the code node to the research node if and only if the
    answer has fewer than two code blocks and at most 500 characters; in
    every other case it goes to the synthesizer. *)
Theorem unsure_code_agent_asks_research settings rt (tick : nat) (state : WorkflowState)
    (response : AgentResponse) (code_blocks : list string) :
  process_call rt Role_code tick state = Returned response ->
  confidence response = AgentConfidence.code_confidence code_blocks (content response) ->
  length code_blocks <= AgentConfidence.checked_length ->
  "research" ∉ agents_visited state ->
  query_type state <> DECISION ->
  let unsure := length code_blocks < 2 /\ String.length (content response) <= 500 in
  (unsure ->
   step settings rt tick N_code state = Returned (N_research, code_node rt tick state)) /\
  (~ unsure ->
   step settings rt tick N_code state = Returned (N_synthesizer, code_node rt tick state)).
Proof.
  intros Hcall Hconf Hlen Hnot Hq unsure.
  destruct (agent_node_returned rt Role_code tick state response Hcall)
    as (_ & Hscores & _ & Hvisited & _).
  pose proof (agent_node_frame rt Role_code tick state) as Hframe.
  simpl in Hscores, Hvisited, Hframe.
  assert (Hafter : after_code (code_node rt tick state) =
    if PrimFloat.ltb (confidence response) 0.7 then "research" else "synthesizer").
  { unfold after_code. rewrite Hscores, Hvisited, Hframe, lookup_insert_eq. simpl.
    rewrite (bool_decide_false ("research" ∈ _)).
    - rewrite (bool_decide_false (query_type state = DECISION)) by done. simpl.
      by destruct (PrimFloat.ltb (confidence response) 0.7).
    - rewrite elem_of_app, list_elem_of_singleton. by intros [?|?]. }
  pose proof (code_confidence_low code_blocks (content response) Hlen) as Hlow.
  rewrite <- Hconf in Hlow. fold unsure in Hlow.
  unfold step. rewrite Hafter.
  destruct (PrimFloat.ltb (confidence response) 0.7); split; try done.
  - intros Hno. exfalso. by apply Hno, Hlow.
  - intros Hyes%Hlow. done.
Qed.

Lemma unsure_code_agent_asks_research_witness :
  let state := route_query scored_code_runtime 0 code_query in
  let unsure := length (@nil string) < 2 /\ String.length "use sorted()" <= 500 in
  (unsure ->
   step default_settings scored_code_runtime 1 N_code state =
   Returned (N_research, code_node scored_code_runtime 1 state)) /\
  (~ unsure ->
   step default_settings scored_code_runtime 1 N_code state =
   Returned (N_synthesizer, code_node scored_code_runtime 1 state)).
Proof.
  apply (unsure_code_agent_asks_research default_settings scored_code_runtime 1
           (route_query scored_code_runtime 0 code_query)
           (answer AGENT_CODE "use sorted()"
              (AgentConfidence.code_confidence [] "use sorted()"))
           []).
  - reflexivity.
  - reflexivity.
  - vm_compute. lia.
  - simpl. apply not_elem_of_nil.
  - discriminate.
Defined.

(** * The validator's outcomes in a run *)

(** While a run is going, the retry counter is below a bound of at least 1. *)
Lemma reachable_below_bound settings rt (start : WorkflowState) (n : Node) (tick : nat)
    (state : WorkflowState) :
  (retry_count start < retry_max_attempts settings)%Z ->
  reachable settings rt start n tick state ->
  n <> N_END ->
  (retry_count state < retry_max_attempts settings)%Z.
Proof.
  intros Hstart Hreach. induction Hreach as [|n tick state n' state' _ IH Hn Hstep];
    intros Hn'; [done|].
  specialize (IH Hn). rewrite reduce_retry_count.
  destruct (decide (n = N_validator)) as [-> | Hnv].
  - rewrite validator_step in Hstep. injection Hstep as <- <-.
    destruct (negb _) in Hn'; simpl in Hn'; [|done].
    case_bool_decide; done.
  - apply step_apply_node in Hstep as ->.
    destruct n; unfold apply_node; try done.
    + by rewrite route_query_retry_count.
    + change (research_node rt) with (agent_node rt Role_research).
      by rewrite agent_node_retry_count.
    + change (code_node rt) with (agent_node rt Role_code).
      by rewrite agent_node_retry_count.
    + change (decision_node rt) with (agent_node rt Role_decision).
      by rewrite agent_node_retry_count.
    + by rewrite synthesize_retry_count.
Qed.

(** What the validator and the retry decision do together.  A state that
    passes becomes COMPLETED and the run ends.  A rejected state whose
    counter has reached the bound becomes FAILED and the run ends.  A
    rejected state whose counter is below the bound has the counter
    incremented by one and stays PROCESSING; the run returns to the router
    when the incremented counter is still below the bound and ends
    otherwise. *)
Theorem validator_three_outcomes settings rt (tick : nat) (state : WorkflowState) :
  let state' := validate_response settings rt tick state in
  let bound := retry_max_attempts settings in
  (~ rejects rt state ->
   current_status state' = COMPLETED /\ retry_count state' = retry_count state /\
   step settings rt tick N_validator state = Returned (N_END, state')) /\
  (rejects rt state -> (retry_count state >= bound)%Z ->
   current_status state' = FAILED /\ retry_count state' = retry_count state /\
   step settings rt tick N_validator state = Returned (N_END, state')) /\
  (rejects rt state -> (retry_count state < bound)%Z ->
   current_status state' = PROCESSING /\
   retry_count state' = (retry_count state + 1)%Z /\
   step settings rt tick N_validator state =
   Returned (if bool_decide (retry_count state + 1 < bound)%Z then N_router else N_END,
             state')).
Proof. apply validator_outcomes. Qed.

(** In every state of a run the status is the one of the initial state,
    or the one the router or the validator wrote last; with a counter below
    the bound the validator does not write FAILED. *)
Lemma reachable_status settings rt (start : WorkflowState) (n : Node) (tick : nat)
    (state : WorkflowState) :
  (retry_count start < retry_max_attempts settings)%Z ->
  current_status start = PENDING ->
  reachable settings rt start n tick state ->
  current_status state = PENDING \/ current_status state = PROCESSING \/
  current_status state = COMPLETED.
Proof.
  intros Hstart Hpending Hreach.
  induction Hreach as [|n tick state n' output Hreach IH Hn Hstep]; [auto|].
  rewrite reduce_current_status.
  destruct (decide (n = N_validator)) as [-> | Hnv].
  - assert (Hlt : (retry_count state < retry_max_attempts settings)%Z).
    { by apply (reachable_below_bound settings rt start N_validator tick state). }
    destruct (validator_outcomes settings rt tick state) as (Hvalid & _ & Hretry).
    destruct (decide ((validation_checks rt state).1 = false)) as [Hrej | Hacc].
    + destruct (Hretry Hrej Hlt) as (Hs & _ & Hstep'). rewrite Hstep' in Hstep.
      injection Hstep as _ <-. auto.
    + destruct (Hvalid Hacc) as (Hs & _ & Hstep'). rewrite Hstep' in Hstep.
      injection Hstep as _ <-. auto.
  - apply step_apply_node in Hstep as ->.
    destruct n; unfold apply_node; try done.
    + destruct (route_query_frame rt tick state) as (_ & _ & _ & _ & _ & _ & ->). auto.
    + unfold research_node. by destruct (research_agent_process _ _ _).
    + unfold code_node. by destruct (code_agent_process _ _ _).
    + unfold decision_node. by destruct (decision_agent_process _ _ _).
    + unfold synthesize_responses.
      destruct (agent_responses state) as [|[k1 r1] [|[k2 r2] l]];
        try destruct (llm_ainvoke _ _ _); done.
Qed.

(** With a retry bound of at least 1 the validator never writes FAILED in a
    run: the counter is below the bound whenever the validator is entered,
    so a rejected answer is left PROCESSING.  No state of a run has the
    status FAILED, and the state the graph holds at END is COMPLETED when
    the last validation passed and PROCESSING, with the counter incremented,
    when it did not.  Whatever FAILED [execute] reports does not come from
    the validator. *)
Theorem validator_never_fails settings rt (query_id query : string)
    (query_type : QueryType) (meta : option (gmap string MetaValue))
    (n : Node) (tick : nat) (state : WorkflowState) :
  (0 < retry_max_attempts settings)%Z ->
  reachable settings rt (initial_state query_id query query_type meta) n tick state ->
  current_status state <> FAILED /\
  (n = N_END ->
   exists (tick' : nat) (checked : WorkflowState),
     reachable settings rt (initial_state query_id query query_type meta)
       N_validator tick' checked /\
     state = reduce (validate_response settings rt tick' checked) /\
     (retry_count checked < retry_max_attempts settings)%Z /\
     (~ rejects rt checked ->
      current_status state = COMPLETED /\ retry_count state = retry_count checked) /\
     (rejects rt checked ->
      current_status state = PROCESSING /\
      retry_count state = (retry_count checked + 1)%Z)).
Proof.
  intros Hbound Hreach.
  set (start := initial_state query_id query query_type meta) in *.
  assert (Hstart : (retry_count start < retry_max_attempts settings)%Z) by done.
  split.
  - destruct (reachable_status settings rt start n tick state Hstart eq_refl Hreach)
      as [-> | [-> | ->]]; done.
  - intros ->.
    destruct (end_after_validator settings rt _ _ _ Hreach) as (tick' & checked & Hv & ->).
    exists tick', checked. split; [done|]. split; [done|].
    assert (Hlt : (retry_count checked < retry_max_attempts settings)%Z).
    { by apply (reachable_below_bound settings rt start N_validator tick' checked Hstart Hv). }
    split; [done|].
    rewrite reduce_current_status, reduce_retry_count.
    destruct (validator_outcomes settings rt tick' checked) as (Hvalid & _ & Hretry).
    split.
    + intros Hacc. by destruct (Hvalid Hacc) as (? & ? & _).
    + intros Hrej. by destruct (Hretry Hrej Hlt) as (? & ? & _).
Qed.

Lemma validator_never_fails_witness :
  let start := initial_state "q1" "what is a monad" RESEARCH None in
  current_status terse_final <> FAILED /\
  (N_END = N_END ->
   exists (tick' : nat) (checked : WorkflowState),
     reachable default_settings terse_runtime start N_validator tick' checked /\
     terse_final = reduce (validate_response default_settings terse_runtime tick' checked) /\
     (retry_count checked < retry_max_attempts default_settings)%Z /\
     (~ rejects terse_runtime checked ->
      current_status terse_final = COMPLETED /\
      retry_count terse_final = retry_count checked) /\
     (rejects terse_runtime checked ->
      current_status terse_final = PROCESSING /\
      retry_count terse_final = (retry_count checked + 1)%Z)).
Proof.
  apply (validator_never_fails default_settings terse_runtime "q1" "what is a monad"
           RESEARCH None N_END 12 terse_final).
  - reflexivity.
  - unfold terse_final.
    apply (advance_reachable_state default_settings terse_runtime 12 research_query N_END).
    by vm_compute.
Defined.

(** * The language model of the agents *)

(** Of the four providers the settings accept (openai, anthropic, ollama,
    azure), only openai lets an agent build its language model:
    [_initialize_llm] raises NotImplementedError for anthropic and ollama,
    and for azure [get_llm_config] already raises ValueError.  With openai
    the model, the token limit, the key and the timeout always come from
    the settings (the defaults written at the call are never used); the
    temperature is the settings' for the research agent, 0.3 for the code
    agent and 0.5 for the decision agent. *)
Theorem only_openai_is_usable (kind : Config.AgentKind) (self : Config.LLMSettings) :
  (forall p : string,
     (exists v, Config.validate_llm_provider p = Returned v) <->
     p = "openai" \/ p = "anthropic" \/ p = "ollama" \/ p = "azure") /\
  ((exists chat, Config._initialize_llm kind self = Returned chat) <->
   Config.llm_provider self = "openai") /\
  (Config.llm_provider self = "openai" ->
   Config._initialize_llm kind self =
   Returned
     (Config.mkChatOpenAI
        (Config.CfgText (Some (Config.llm_model self)))
        (match kind with
         | Config.ResearchKind => Config.CfgFloat (Config.llm_temperature self)
         | Config.CodeKind => Config.CfgFloat 0.3
         | Config.DecisionKind => Config.CfgFloat 0.5
         end)
        (Config.CfgInt (Config.llm_max_tokens self))
        (Some (Config.CfgText (Config.openai_api_key self)))
        (Config.CfgInt (Config.llm_timeout self)))) /\
  (Config.llm_provider self = "anthropic" \/ Config.llm_provider self = "ollama" ->
   Config._initialize_llm kind self =
   Raised (Exn "NotImplementedError"
             ("Provider " +:+ Config.llm_provider self +:+ " not implemented yet"))) /\
  (Config.llm_provider self = "azure" ->
   Config._initialize_llm kind self =
   Raised (Exn "ValueError" "Unsupported LLM provider: azure")).
Proof.
  assert (Hopenai : Config.llm_provider self = "openai" ->
    Config._initialize_llm kind self =
    Returned
      (Config.mkChatOpenAI
         (Config.CfgText (Some (Config.llm_model self)))
         (match kind with
          | Config.ResearchKind => Config.CfgFloat (Config.llm_temperature self)
          | Config.CodeKind => Config.CfgFloat 0.3
          | Config.DecisionKind => Config.CfgFloat 0.5
          end)
         (Config.CfgInt (Config.llm_max_tokens self))
         (Some (Config.CfgText (Config.openai_api_key self)))
         (Config.CfgInt (Config.llm_timeout self)))).
  { intros Hp. unfold Config._initialize_llm, Config.get_llm_config.
    rewrite !decide_True by done. by destruct kind. }
  assert (Hother : Config.llm_provider self <> "openai" ->
    forall chat, Config._initialize_llm kind self <> Returned chat).
  { intros Hp chat. unfold Config._initialize_llm, Config.get_llm_config.
    rewrite !decide_False by done.
    by repeat destruct (decide _). }
  split; [|split; [|split; [|split]]].
  - intros p. unfold Config.validate_llm_provider, Config.valid_providers.
    case_bool_decide as Hin; set_unfold; split; try tauto.
    + intros _. by eexists.
    + by intros [v ?].
  - split.
    + intros [chat Hchat].
      destruct (decide (Config.llm_provider self = "openai")); [done|].
      by destruct (Hother n chat).
    + intros Hp. eexists. by apply Hopenai.
  - done.
  - intros Hp. unfold Config._initialize_llm, Config.get_llm_config.
    destruct Hp as [Hp | Hp]; rewrite Hp; reflexivity.
  - intros Hp. unfold Config._initialize_llm, Config.get_llm_config.
    rewrite Hp. reflexivity.
Qed.

(** * The tools used in an agent run *)

Lemma tools_fold (intermediate_steps : list Tools.Step) (tools_used : list string) :
  NoDup tools_used ->
  let result :=
    fold_left
      (fun tools_used (step : Tools.Step) =>
         match step with
         | Some tool_name :: _ =>
             if bool_decide (tool_name ∈ tools_used) then tools_used
             else tools_used ++ [tool_name]
         | _ => tools_used
         end)
      intermediate_steps tools_used in
  NoDup result /\
  (forall t : string, t ∈ result <-> t ∈ tools_used \/ t ∈ Tools.step_tools intermediate_steps) /\
  exists added : list string,
    result = tools_used ++ added /\ added `sublist_of` Tools.step_tools intermediate_steps.
Proof.
  revert tools_used.
  induction intermediate_steps as [|step steps IH]; intros tools_used Hnd; simpl.
  - split; [done|]. split; [intros t; rewrite elem_of_nil; tauto|].
    exists []. by rewrite app_nil_r.
  - destruct step as [|[tool_name|] items]; [by apply IH | | by apply IH].
    unfold Tools.step_tools. simpl. fold (Tools.step_tools steps).
    case_bool_decide as Hin.
    + destruct (IH tools_used Hnd) as (Hnd' & Hmem & added & Heq & Hsub).
      split; [done|]. split.
      * intros t. rewrite Hmem, elem_of_cons.
        split; [tauto|]. intros [?|[->|?]]; tauto.
      * exists added. split; [done|]. by apply sublist_cons.
    + assert (Hnd1 : NoDup (tools_used ++ [tool_name])).
      { apply NoDup_app. split; [done|]. split; [|apply NoDup_singleton].
        by intros x Hx ->%list_elem_of_singleton. }
      destruct (IH _ Hnd1) as (Hnd' & Hmem & added & Heq & Hsub).
      split; [done|]. split.
      * intros t. rewrite Hmem, elem_of_app, list_elem_of_singleton, elem_of_cons. tauto.
      * exists (tool_name :: added). split; [by rewrite Heq, <- app_assoc|].
        by apply sublist_skip.
Qed.

(** [_get_tools_used] lists every tool of the run exactly once: the result
    has no duplicate, contains exactly the tools named by the first item of
    a step (steps that are empty or whose first item names no tool are
    skipped), and keeps them in the order of the steps. *)
Theorem tools_used_once (intermediate_steps : list Tools.Step) :
  let tools_used := Tools._get_tools_used intermediate_steps in
  NoDup tools_used /\
  (forall t : string, t ∈ tools_used <-> t ∈ Tools.step_tools intermediate_steps) /\
  tools_used `sublist_of` Tools.step_tools intermediate_steps /\
  (forall t : string,
     t ∈ tools_used <->
     exists items : list (option string), (Some t :: items) ∈ intermediate_steps).
Proof.
  intros tools_used.
  pose proof (tools_fold intermediate_steps [] (NoDup_nil_2)) as Hfold.
  cbv zeta in Hfold. change (fold_left _ intermediate_steps []) with tools_used in Hfold.
  destruct Hfold as (Hnd & Hmem & added & Heq & Hsub).
  simpl in Heq. subst added.
  assert (Hmem' : forall t, t ∈ tools_used <-> t ∈ Tools.step_tools intermediate_steps).
  { intros t. rewrite (Hmem t), elem_of_nil. tauto. }
  split; [done|]. split; [done|]. split; [done|].
  intros t. rewrite Hmem'. unfold Tools.step_tools. rewrite list_elem_of_omap. split.
  - intros ([|[tool_name|] items] & Hin & Hsome); try done.
    injection Hsome as ->. by exists items.
  - intros [items Hin]. by exists (Some t :: items).
Qed.
